(** * PhiSaveSong: the score-export pipeline of [nrks.py]

    A shallow embedding of [src/nrks.py] and the properties of its
    specification.  The script walks the [.csv] files of the working
    directory, strips the [_combined] marker from each name, loads the
    file with pandas, files it under a folder named after the song and
    writes one spreadsheet for the whole song and a pair of files per
    difficulty tier.

    Layout of the development:
    - [PyStr]: the [str] methods and [os.path.join] the script calls;
    - [Pandas]: cells, data frames and the pure part of the pandas calls;
    - [Py]: the interpreter state (file system and object store), the
      exception monad and the library primitives;
    - [Nrks]: the four functions of [nrks.py], line by line;
    - the theorems, one group per property of the specification.

    What the model takes from the libraries.  A path is its string: a
    relative one is joined to the working directory, and the file system
    is a map from paths to contents and a set of directory paths.  An
    operation looks at its source and its target and not at the
    directories above them, and it does not bring two spellings of one
    path together.  So a primitive of the model, when it writes, moves or
    renames a file or makes a directory, returns wherever the library
    call returns, and also in worlds where the call raises for a missing
    or unusable directory above its target.  The theorems take
    account of it: what a call has written or moved is stated of the
    call that returns, what a call leaves alone is stated of every
    outcome, and a file is said to be another file than a given one only
    when their places ([place]) differ.  A [.csv] file holds
    the sheet it parses to, with its cells already typed as pandas would
    type them.  A [DataFrame] is an object in a store and the script
    holds references to it, so that a call that built a new frame and a
    call that changed one in place would be told apart.  The [print]
    calls are left out. *)

From Stdlib Require Import ZArith Ascii String.
From stdpp Require Import base option list gmap strings fin_maps pretty.

(** ** Python strings *)

Module PyStr.

(** [s.startswith(p)]. *)
Fixpoint startswith (p s : string) : bool :=
  match p, s with
  | "", _ => true
  | String a p', String b s' => if Ascii.eqb a b then startswith p' s' else false
  | String _ _, "" => false
  end.

(** [s.endswith(suf)]: some tail of [s], [s] itself included, is [suf]. *)
Fixpoint endswith (suf s : string) : bool :=
  match s with
  | "" => String.eqb suf ""
  | String _ s' => String.eqb suf s || endswith suf s'
  end.

(** [sub in s]. *)
Fixpoint contains (sub s : string) : bool :=
  startswith sub s ||
  match s with
  | "" => false
  | String _ s' => contains sub s'
  end.

(** [s[n:]]; written so that the result is a subterm of [s]. *)
Fixpoint drop (n : nat) (s : string) {struct s} : string :=
  match s with
  | "" => s
  | String _ s' => match n with
                   | O => s
                   | S n' => drop n' s'
                   end
  end.

(** [s.replace(old, new)] with no count: scan from the left, replace the
    occurrence found at the current position and go on after it, so every
    non-overlapping occurrence goes.  With an empty [old], Python puts
    [new] before every character and at the end. *)
Fixpoint replace (old new s : string) {struct s} : string :=
  match s with
  | "" => match old with "" => new | _ => "" end
  | String c s' =>
      match old with
      | "" => new +:+ String c (replace old new s')
      | String _ old' =>
          if startswith old s
          then new +:+ replace old new (drop (String.length old') s')
          else String c (replace old new s')
      end
  end.

(** The number of occurrences [replace] finds: [s.count(old)] for a
    non-empty [old]. *)
Fixpoint count (old s : string) {struct s} : nat :=
  match s with
  | "" => 0
  | String c s' =>
      match old with
      | "" => 0
      | String _ old' =>
          if startswith old s
          then S (count old (drop (String.length old') s'))
          else count old s'
      end
  end.

(** [posixpath.join(a, b)]: an absolute [b] wins, otherwise one separator
    is put between the two unless [a] is empty or already ends with it. *)
Definition os_path_join (a b : string) : string :=
  if startswith "/" b then b
  else if String.eqb a "" || endswith "/" a then a +:+ b
  else a +:+ "/" +:+ b.

(** [s.split('/')]. *)
Fixpoint split_sep (s : string) : list string :=
  match s with
  | "" => [""]
  | String c s' =>
      if Ascii.eqb c "/" then "" :: split_sep s'
      else match split_sep s' with
           | h :: l => String c h :: l
           | [] => [String c ""]
           end
  end.

(** One turn of the loop of [posixpath.normpath] on the components of a
    path; [stack] is [new_comps] with its last entry first. *)
Definition norm_step (absolute : bool) (stack : list string) (comp : string)
  : list string :=
  if String.eqb comp "" || String.eqb comp "." then stack
  else if negb (String.eqb comp "..")
          || (negb absolute && match stack with [] => true | _ => false end)
          || match stack with ".." :: _ => true | _ => false end
       then comp :: stack
       else tail stack.

(** The place a path stands for, read from the root: the components
    [posixpath.normpath] keeps for an absolute path.  Empty and [.]
    components go, a [..] takes the component before it away, and a run
    of separators counts as one, at the start of the path too.  On a
    file system without links two absolute paths that name the same file
    have the same place: paths with different places are different
    files, and this is how the theorems tell files apart. *)
Definition place (p : string) : list string :=
  rev (fold_left (norm_step true) (split_sep p) []).

End PyStr.

(** ** Data frames *)

Module Pandas.

(** A cell as pandas hands it to Python: a [str], a number, or the missing
    value.  Only two things are ever asked of a cell here: whether it
    equals a given [str], and whether it can be used as a path. *)
Inductive Cell : Type :=
  | CStr (s : string)
  | CNum (z : Z)
  | CNaN.

#[global] Instance Cell_eq_dec : EqDecision Cell.
Proof. solve_decision. Defined.

(** A row carries its index label and its values, aligned with the
    columns of the frame. *)
Record DataFrame : Type := mkDataFrame {
  columns : list string;
  rows : list (nat * list Cell)
}.

(** A column taken out of a frame: the labels and one value per row. *)
Definition Series : Type := list (nat * Cell).

(** What a file written with [index=False] holds: the header and the
    rows, without labels. *)
Record Sheet : Type := mkSheet {
  header : list string;
  body : list (list Cell)
}.

#[global] Instance DataFrame_eq_dec : EqDecision DataFrame.
Proof. solve_decision. Defined.

#[global] Instance Sheet_eq_dec : EqDecision Sheet.
Proof. solve_decision. Defined.

(** [Index.get_loc]: the position of a column name. *)
Fixpoint get_loc (c : string) (cols : list string) : option nat :=
  match cols with
  | [] => None
  | x :: cols' => if String.eqb x c then Some 0 else S <$> get_loc c cols'
  end.

(** The value of a row in the column at position [pos]; a row that is
    too short reads as missing. *)
Definition cell_at (pos : nat) (r : nat * list Cell) : Cell :=
  nth pos r.2 CNaN.

(** [df[c]]; [None] stands for the [KeyError]. *)
Definition getitem (c : string) (T : DataFrame) : option Series :=
  pos ← get_loc c (columns T);
  Some ((λ r, (r.1, cell_at pos r)) <$> rows T).

(** [cell == v] for a [str] [v]: numbers and missing values are unequal
    to every string. *)
Definition cell_eq_str (v : string) (x : Cell) : bool :=
  match x with
  | CStr s => String.eqb s v
  | _ => false
  end.

(** [ser == v], the boolean mask. *)
Definition eq_scalar (v : string) (ser : Series) : list bool :=
  (λ x, cell_eq_str v x.2) <$> ser.

(** The entries of a list that a mask keeps. *)
Fixpoint select {A : Type} (mask : list bool) (l : list A) : list A :=
  match mask, l with
  | b :: mask', x :: l' => if b then x :: select mask' l' else select mask' l'
  | _, _ => []
  end.

(** [df[mask]]: a new frame with the rows the mask keeps, labels and all. *)
Definition getmask (mask : list bool) (T : DataFrame) : DataFrame :=
  {| columns := columns T; rows := select mask (rows T) |}.

(** The values of one row that stay when column [c] goes. *)
Fixpoint drop_cells (c : string) (cols : list string) (cells : list Cell)
  : list Cell :=
  match cols, cells with
  | x :: cols', v :: cells' =>
      if String.eqb x c then drop_cells c cols' cells'
      else v :: drop_cells c cols' cells'
  | _, _ => []
  end.

(** [df.drop(columns=[c], errors='ignore')]: a new frame; a name that is
    not a column is ignored. *)
Definition drop_column (c : string) (T : DataFrame) : DataFrame :=
  {| columns := List.filter (λ x, negb (String.eqb x c)) (columns T);
     rows := (λ r, (r.1, drop_cells c (columns T) r.2)) <$> rows T |}.

(** [df.empty]: some axis has length zero. *)
Definition empty (T : DataFrame) : bool :=
  (length (columns T) =? 0)%nat || (length (rows T) =? 0)%nat.

(** [ser.iloc[0]]; [None] stands for the [IndexError]. *)
Definition iloc0 (ser : Series) : option Cell :=
  match ser with
  | [] => None
  | x :: _ => Some x.2
  end.

(** What [to_csv] and [to_excel] write with [index=False]. *)
Definition to_sheet (T : DataFrame) : Sheet :=
  {| header := columns T; body := snd <$> rows T |}.

(** The frame [read_csv] builds from a parsed file: the labels are
    [0, 1, 2, ...]. *)
Definition of_sheet (sh : Sheet) : DataFrame :=
  {| columns := header sh; rows := imap (λ i r, (i, r)) (body sh) |}.

(** A sheet as a parser produces it: distinct column names and as many
    values in every row as there are columns. *)
Definition rectangular (sh : Sheet) : bool :=
  bool_decide (NoDup (header sh)) &&
  forallb (λ r, (length r =? length (header sh))%nat) (body sh).


(** A row read as a record: the column names paired with the values. *)
Definition record (cols : list string) (cells : list Cell)
  : list (string * Cell) :=
  zip cols cells.

(** [str(x)], as an f-string formats a cell. *)
Definition py_str (x : Cell) : string :=
  match x with
  | CStr s => s
  | CNum z => pretty z
  | CNaN => "nan"
  end.

End Pandas.

(** ** The interpreter state and the library calls *)

Module Py.
Import PyStr Pandas.

(** What a file holds: delimited text that parses to a sheet, a
    spreadsheet, or bytes that no reader accepts. *)
Inductive Content : Type :=
  | Csv (sh : Sheet)
  | Xlsx (sh : Sheet)
  | Junk.

#[global] Instance Content_eq_dec : EqDecision Content.
Proof. solve_decision. Defined.

(** The exceptions the script can meet.  [ReferenceError] is the model's
    own: a frame reference that was never allocated, which no Python
    program can hold. *)
Inductive Exn : Type :=
  | KeyError
  | IndexError
  | TypeError
  | FileNotFoundError
  | FileExistsError
  | IsADirectoryError
  | NotADirectoryError
  | OSError
  | ShutilError
  | ParserError
  | EmptyDataError
  | ReferenceError.

#[global] Instance Exn_eq_dec : EqDecision Exn.
Proof. solve_decision. Defined.

Inductive Result (A : Type) : Type :=
  | Ok (a : A)
  | Raise (e : Exn).
Arguments Ok {A} a.
Arguments Raise {A} e.

(** The world a run acts on.  Files and directories are keyed by their
    path string; a frame lives in the object store and is known to the
    program by its position there.  The store only grows: nothing the
    script calls updates a frame in place. *)
Record World : Type := mkWorld {
  cwd : string;
  files : gmap string Content;
  dirs : gset string;
  frames : list DataFrame
}.

Definition with_files (f : gmap string Content) (w : World) : World :=
  {| cwd := cwd w; files := f; dirs := dirs w; frames := frames w |}.
Definition with_dirs (d : gset string) (w : World) : World :=
  {| cwd := cwd w; files := files w; dirs := d; frames := frames w |}.
Definition with_frames (fr : list DataFrame) (w : World) : World :=
  {| cwd := cwd w; files := files w; dirs := dirs w; frames := fr |}.

(** A computation returns a value or raises, and in both cases leaves the
    world as it was at that point: an exception undoes nothing. *)
Definition M (A : Type) : Type := World → Result A * World.

#[global] Instance M_ret : MRet M := λ A a w, (Ok a, w).
#[global] Instance M_bind : MBind M := λ A B f m w,
  match m w with
  | (Ok a, w') => f a w'
  | (Raise e, w') => (Raise e, w')
  end.

Definition raise {A : Type} (e : Exn) : M A := λ w, (Raise e, w).

(** [for x in l: body(x)]. *)
Fixpoint for_each {A : Type} (l : list A) (body : A → M unit) : M unit :=
  match l with
  | [] => mret tt
  | x :: l' => _ ← body x; for_each l' body
  end.

(** *** Paths *)

(** A relative path is resolved against the working directory.  The
    result is not normalized: the statements that tell files apart do it
    with [place]. *)
Definition resolve (w : World) (p : string) : string :=
  os_path_join (cwd w) p.

(** [os.fspath] on a cell: only a [str] is a path. *)
Definition os_fspath (x : Cell) : M string :=
  match x with
  | CStr s => mret s
  | _ => raise TypeError
  end.

(** [p.rstrip('/')]. *)
Fixpoint rstrip_sep (p : string) : string :=
  match p with
  | "" => ""
  | String c p' =>
      let r := rstrip_sep p' in
      if Ascii.eqb c "/" && String.eqb r "" then "" else String c r
  end.

(** [os.path.basename]: what follows the last separator. *)
Fixpoint basename (p : string) : string :=
  match p with
  | "" => ""
  | String c p' => if contains "/" p then basename p' else p
  end.

(** The name of an entry directly inside directory [d], if [p] is one. *)
Definition child_name (d p : string) : option string :=
  let pre := if endswith "/" d then d else d +:+ "/" in
  if startswith pre p then
    let n := drop (String.length pre) p in
    if String.eqb n "" || contains "/" n then None else Some n
  else None.

(** Where a path under directory [src] lands when that directory becomes
    [dst]. *)
Definition rekey (src dst p : string) : string :=
  if String.eqb p src then dst
  else if startswith (src +:+ "/") p then dst +:+ drop (String.length src) p
  else p.

(** *** [os] and [shutil] *)

Definition os_getcwd : M string := λ w, (Ok (cwd w), w).

(** [os.listdir]: the names of the files and directories directly inside
    [path], in the order the store yields them. *)
Definition os_listdir (path : string) : M (list string) := λ w,
  (Ok (omap (child_name (resolve w path))
            (elements (dom (files w) ∪ dirs w))), w).

(** [os.makedirs(path, exist_ok=True)]: nothing to do for a directory
    that is there; a file of that name is in the way.  Of the
    directories the call makes only [path] itself is recorded; the
    missing ones above it are not, nor is a file among them found to be
    in the way. *)
Definition os_makedirs (path : string) : M unit := λ w,
  let p := resolve w path in
  if decide (p ∈ dirs w) then (Ok tt, w)
  else if decide (is_Some (files w !! p)) then (Raise FileExistsError, w)
  else (Ok tt, with_dirs ({[p]} ∪ dirs w) w).

(** [os.rename] on a POSIX system.  A file replaces a file of the target
    name and cannot replace a directory.  A directory is left alone when
    source and target are the same path; otherwise it takes everything
    below it along, and is refused when the target name is taken (the
    system would let it replace an empty directory, which is not told
    apart here).  The target is not looked at any further: an empty
    target, or one below a directory that is not there, is accepted,
    where the system raises. *)
Definition os_rename (src dst : string) : M unit := λ w,
  let s := resolve w src in
  let d := resolve w dst in
  match files w !! s with
  | Some c =>
      if decide (d ∈ dirs w) then (Raise IsADirectoryError, w)
      else (Ok tt, with_files (<[d := c]> (delete s (files w))) w)
  | None =>
      if decide (s ∈ dirs w) then
        if decide (s = d) then (Ok tt, w)
        else if decide (is_Some (files w !! d)) then (Raise NotADirectoryError, w)
        else if decide (d ∈ dirs w) then (Raise OSError, w)
        else (Ok tt,
              with_dirs (set_map (rekey s d) (dirs w))
                (with_files (kmap (rekey s d) (files w)) w))
      else (Raise FileNotFoundError, w)
  end.

(** [shutil.move]: into [dst] when that is a directory (unless it is the
    source itself), else onto [dst]. *)
Definition shutil_move (src dst : string) : M unit := λ w,
  let s := resolve w src in
  let d := resolve w dst in
  if decide (d ∈ dirs w) then
    if decide (s = d) then os_rename src dst w
    else
      let real_dst := os_path_join dst (basename (rstrip_sep src)) in
      let rd := resolve w real_dst in
      if decide (is_Some (files w !! rd) ∨ rd ∈ dirs w)
      then (Raise ShutilError, w)
      else os_rename src real_dst w
  else os_rename src dst w.

(** *** pandas *)

(** A new frame in the store; its reference is returned. *)
Definition alloc (T : DataFrame) : M nat := λ w,
  (Ok (length (frames w)), with_frames (frames w ++ [T]) w).

(** The frame behind a reference. *)
Definition deref (r : nat) : M DataFrame := λ w,
  match frames w !! r with
  | Some T => (Ok T, w)
  | None => (Raise ReferenceError, w)
  end.

(** [pd.read_csv(path)]. *)
Definition read_csv (path : string) : M nat := λ w,
  let p := resolve w path in
  if decide (p ∈ dirs w) then (Raise IsADirectoryError, w)
  else match files w !! p with
       | None => (Raise FileNotFoundError, w)
       | Some (Csv sh) =>
           match header sh with
           | [] => (Raise EmptyDataError, w)
           | _ => if rectangular sh then alloc (of_sheet sh) w
                  else (Raise ParserError, w)
           end
       | Some _ => (Raise ParserError, w)
       end.

(** [df[c]]. *)
Definition df_getitem (df : nat) (c : string) : M Series :=
  T ← deref df;
  match getitem c T with
  | Some ser => mret ser
  | None => raise KeyError
  end.

(** [df[mask]]. *)
Definition df_getmask (df : nat) (mask : list bool) : M nat :=
  T ← deref df; alloc (getmask mask T).

(** [df.empty]. *)
Definition df_empty (df : nat) : M bool :=
  T ← deref df; mret (empty T).

(** [df.drop(columns=[c], errors='ignore')]: the result is a new frame,
    the frame behind [df] is not touched. *)
Definition df_drop (df : nat) (c : string) : M nat :=
  T ← deref df; alloc (drop_column c T).

(** [ser.iloc[0]]. *)
Definition series_iloc0 (ser : Series) : M Cell :=
  match iloc0 ser with
  | Some x => mret x
  | None => raise IndexError
  end.

(** Writing a file: a directory of that name is in the way, an older file
    of that name is replaced.  The directory the file goes to is not
    looked at: where it is missing pandas raises [OSError] and this
    returns. *)
Definition write_file (path : string) (c : Content) : M unit := λ w,
  let p := resolve w path in
  if decide (p ∈ dirs w) then (Raise IsADirectoryError, w)
  else (Ok tt, with_files (<[p := c]> (files w)) w).

(** [df.to_csv(path, index=False)]. *)
Definition to_csv (df : nat) (path : string) : M unit :=
  T ← deref df; write_file path (Csv (to_sheet T)).

(** [df.to_excel(path, index=False)]. *)
Definition to_excel (df : nat) (path : string) : M unit :=
  T ← deref df; write_file path (Xlsx (to_sheet T)).

End Py.

(** ** The script *)

Module Nrks.
Import PyStr Pandas Py.

(** [remove_combined_suffix] (lines 5-11). *)
Definition remove_combined_suffix (file_path : string) : M string :=
  if contains "_combined" file_path then
    let new_name := replace "_combined" "" file_path in
    _ ← os_rename file_path new_name;
    mret new_name
  else mret file_path.

(** [create_song_folder] (lines 13-17).  [song_name] is whatever the
    first row held; [os.path.join] refuses anything but a [str]. *)
Definition create_song_folder (song_name : Cell) (output_dir : string)
  : M string :=
  name ← os_fspath song_name;
  let song_folder := os_path_join output_dir name in
  _ ← os_makedirs song_folder;
  mret song_folder.

(** The tiers of line 21, in the order of the loop. *)
Definition difficulties : list string := ["EZ"; "HD"; "IN"; "AT"].

(** The two file names of lines 29 and 30. *)
Definition csv_file (song_name : Cell) (song_folder difficulty : string)
  : string :=
  os_path_join song_folder (py_str song_name +:+ "_" +:+ difficulty +:+ ".csv").

Definition excel_file (song_name : Cell) (song_folder difficulty : string)
  : string :=
  os_path_join song_folder (py_str song_name +:+ "_" +:+ difficulty +:+ ".xlsx").

(** One turn of the loop of [split_by_difficulty] (lines 23-35). *)
Definition split_tier (df : nat) (song_name : Cell) (song_folder : string)
  (difficulty : string) : M unit :=
  ser ← df_getitem df "difficulty";
  difficulty_data ← df_getmask df (eq_scalar difficulty ser);
  e ← df_empty difficulty_data;
  if negb e then
    difficulty_data ← df_drop difficulty_data "song_name";
    _ ← to_csv difficulty_data (csv_file song_name song_folder difficulty);
    to_excel difficulty_data (excel_file song_name song_folder difficulty)
  else mret tt.

(** Line 24 on its own, without the store: the Difficulty Partition of a
    table for one tier.  [None] stands for the [KeyError] of a table
    without a [difficulty] column. *)
Definition partition (difficulty : string) (T : DataFrame) : option DataFrame :=
  ser ← getitem "difficulty" T;
  Some (getmask (eq_scalar difficulty ser) T).

(** [split_by_difficulty] (lines 19-35). *)
Definition split_by_difficulty (df : nat) (song_name : Cell)
  (song_folder : string) : M unit :=
  for_each difficulties (split_tier df song_name song_folder).

(** Lines 56-62 of [main]: the song of the first row, its folder, and the
    input file moved there.  The target of the move is built from
    [file_name], the name before [remove_combined_suffix]. *)
Definition place_song (df : nat) (output_dir file_path file_name : string)
  : M (Cell * string) :=
  ser ← df_getitem df "song_name";
  song_name ← series_iloc0 ser;
  song_folder ← create_song_folder song_name output_dir;
  _ ← shutil_move file_path (os_path_join song_folder file_name);
  mret (song_name, song_folder).

(** The file name of line 66. *)
Definition song_excel_file (song_name : Cell) (song_folder : string) : string :=
  os_path_join song_folder (py_str song_name +:+ ".xlsx").

(** Lines 65-67 of [main]: the spreadsheet of the whole song. *)
Definition export_song (df : nat) (song_name : Cell) (song_folder : string)
  : M unit :=
  df_without_name ← df_drop df "song_name";
  to_excel df_without_name (song_excel_file song_name song_folder).

(** The body of the loop of [main] (lines 47-70). *)
Definition process_file (output_dir file_name : string) : M unit :=
  file_path ← remove_combined_suffix file_name;
  df ← read_csv file_path;
  '(song_name, song_folder) ← place_song df output_dir file_path file_name;
  _ ← export_song df song_name song_folder;
  split_by_difficulty df song_name song_folder.

(** [main] (lines 37-75).  The [print] calls are left out. *)
Definition main : M unit :=
  current_dir ← os_getcwd;
  let output_dir := os_path_join current_dir "generated_files" in
  _ ← os_makedirs output_dir;
  names ← os_listdir current_dir;
  let files := List.filter (endswith ".csv") names in
  _ ← for_each files (process_file output_dir);
  shutil_move output_dir (os_path_join current_dir "generated_files").

End Nrks.

Import PyStr Pandas Py Nrks.

(** ** The steps read on a table

    The same steps with the table in hand instead of a reference into the
    store; the lemmas below show that they agree with the script. *)

(** The sheet the two files of a tier hold, for its partition [P]. *)
Definition tier_sheet (P : DataFrame) : Sheet :=
  to_sheet (drop_column "song_name" P).

(** One turn of the loop, spelled out on a table [T] behind [df]. *)
Definition split_tier_on (T : DataFrame) (song_name : Cell)
  (song_folder difficulty : string) : M unit := λ w,
  match partition difficulty T with
  | None => (Raise KeyError, w)
  | Some P =>
      if empty P then (Ok tt, with_frames (frames w ++ [P]) w)
      else
        let D := drop_column "song_name" P in
        (_ ← write_file (csv_file song_name song_folder difficulty) (Csv (to_sheet D));
         write_file (excel_file song_name song_folder difficulty) (Xlsx (to_sheet D)))
          (with_frames (frames w ++ [P; D]) w)
  end.

(** Lines 56-62 spelled out on a table [T] behind [df]. *)
Definition place_song_on (T : DataFrame) (output_dir file_path file_name : string)
  : M (Cell * string) := λ w,
  match getitem "song_name" T with
  | None => (Raise KeyError, w)
  | Some ser =>
      match iloc0 ser with
      | None => (Raise IndexError, w)
      | Some (CStr name) =>
          let song_folder := os_path_join output_dir name in
          (_ ← os_makedirs song_folder;
           _ ← shutil_move file_path (os_path_join song_folder file_name);
           mret (CStr name, song_folder)) w
      | Some _ => (Raise TypeError, w)
      end
  end.

(** ** Properties of worlds and rows *)

(** No path is a file and a directory at once. *)
Definition no_file_is_dir (w : World) : Prop :=
  ∀ p, p ∈ dirs w → files w !! p = None.

(** A row whose difficulty is none of the four tiers. *)
Definition other_tier (pos : nat) (r : nat * list Cell) : bool :=
  negb (existsb (λ t, cell_eq_str t (cell_at pos r)) difficulties).

(** ** Tables and working directories used as examples *)

(** The example of the specification: four rows of one song, tiers
    [EZ], [HD], [HD], [IN]. *)
Definition airglow : Sheet :=
  {| header := ["song_name"; "difficulty"; "score"];
     body := [[CStr "Airglow"; CStr "EZ"; CNum 100];
              [CStr "Airglow"; CStr "HD"; CNum 90];
              [CStr "Airglow"; CStr "HD"; CNum 80];
              [CStr "Airglow"; CStr "IN"; CNum 70]] |}.

(** That table in the store, and on disk nothing but the song folder. *)
Definition airglow_loaded : World :=
  {| cwd := "/w";
     files := ∅;
     dirs := {[ "/w"; "/w/generated_files"; "/w/generated_files/Airglow" ]};
     frames := [of_sheet airglow] |}.

(** A table with a chart of a tier outside the four of line 21. *)
Definition legacy_sheet : Sheet :=
  {| header := ["song_name"; "difficulty"; "score"];
     body := [[CStr "Airglow"; CStr "EZ"; CNum 100];
              [CStr "Airglow"; CStr "Legacy"; CNum 90]] |}.

(** An input file with a header and no rows. *)
Definition header_only : Sheet :=
  {| header := ["song_name"; "difficulty"; "score"]; body := [] |}.

(** A working directory whose only input file is that one. *)
Definition empty_input : World :=
  {| cwd := "/w";
     files := {[ "/w/empty_combined.csv" := Csv header_only ]};
     dirs := {[ "/w"; "/w/generated_files" ]};
     frames := [] |}.

(** The table of [legacy_sheet] in the store, and its song folder. *)
Definition legacy_loaded : World :=
  {| cwd := "/w";
     files := ∅;
     dirs := {[ "/w"; "/w/generated_files"; "/w/generated_files/Airglow" ]};
     frames := [of_sheet legacy_sheet] |}.

(** A working directory with one input file whose name carries the marker
    twice. *)
Definition twice_marked : World :=
  {| cwd := "/w";
     files := {[ "/w/a_combined_combined.csv" := Csv legacy_sheet ]};
     dirs := {[ "/w" ]};
     frames := [] |}.

(** A working directory with one input file whose name carries the
    marker. *)
Definition marked_input : World :=
  {| cwd := "/w";
     files := {[ "/w/a_combined.csv" := Csv airglow ]};
     dirs := {[ "/w" ]};
     frames := [] |}.

(** Three input files, listed in the order [c.csv], [a.csv], [b.csv];
    [a.csv] has a header and no rows. *)
Definition three_inputs : World :=
  {| cwd := "/w";
     files := {[ "/w/a.csv" := Csv header_only;
                 "/w/b.csv" := Csv legacy_sheet;
                 "/w/c.csv" := Csv airglow ]};
     dirs := {[ "/w"; "/w/generated_files" ]};
     frames := [] |}.

(** A song whose name reads as a number. *)
Definition numbered_song : Sheet :=
  {| header := ["song_name"; "difficulty"; "score"];
     body := [[CNum 39; CStr "EZ"; CNum 100]] |}.

(** A working directory whose only input file holds it. *)
Definition numbered_input : World :=
  {| cwd := "/w";
     files := {[ "/w/n_combined.csv" := Csv numbered_song ]};
     dirs := {[ "/w"; "/w/generated_files" ]};
     frames := [] |}.

(** A table of one song without a [difficulty] column. *)
Definition untiered : Sheet :=
  {| header := ["song_name"; "score"];
     body := [[CStr "Airglow"; CNum 100]; [CStr "Airglow"; CNum 90]] |}.

(** A working directory whose only input file holds it. *)
Definition untiered_input : World :=
  {| cwd := "/w";
     files := {[ "/w/u.csv" := Csv untiered ]};
     dirs := {[ "/w"; "/w/generated_files" ]};
     frames := [] |}.

(** Two files whose names differ by the marker. *)
Definition clashing_inputs : World :=
  {| cwd := "/w";
     files := {[ "/w/song_combined.csv" := Csv airglow;
                 "/w/song.csv" := Csv legacy_sheet ]};
     dirs := {[ "/w" ]};
     frames := [] |}.

(** A working directory with nothing to process. *)
Definition no_inputs : World :=
  {| cwd := "/w";
     files := {[ "/w/notes.txt" := Junk ]};
     dirs := {[ "/w" ]};
     frames := [] |}.

(** ** Examples of the string functions *)

Example replace_once : PyStr.replace "_combined" "" "song_combined.csv" = "song.csv".
Proof. reflexivity. Qed.

Example replace_twice :
  PyStr.replace "_combined" "" "a_combined_combined.csv" = "a.csv".
Proof. reflexivity. Qed.

Example replace_empty_old : PyStr.replace "" "-" "ab" = "-a-b-".
Proof. reflexivity. Qed.

Example join_relative : PyStr.os_path_join "/w/out" "song" = "/w/out/song".
Proof. reflexivity. Qed.

Example place_parent :
  PyStr.place "/w/generated_files/../a.csv" = PyStr.place "/w/a.csv".
Proof. reflexivity. Qed.

Example place_separators :
  PyStr.place "//w/./x//y/" = ["w"; "x"; "y"].
Proof. reflexivity. Qed.

Example place_above_root : PyStr.place "/../w" = ["w"].
Proof. reflexivity. Qed.

(** ** Reasoning about computations *)

Section Monad.
Context {A B : Type}.

Lemma bind_ok (m : M A) (f : A → M B) w a w' :
  m w = (Ok a, w') → (m ≫= f) w = f a w'.
Proof. intros H. unfold mbind, M_bind. by rewrite H. Qed.

Lemma bind_raise (m : M A) (f : A → M B) w e w' :
  m w = (Raise e, w') → (m ≫= f) w = (Raise e, w').
Proof. intros H. unfold mbind, M_bind. by rewrite H. Qed.

Lemma bind_inv (m : M A) (f : A → M B) w r w' :
  (m ≫= f) w = (r, w') →
  (∃ a w1, m w = (Ok a, w1) ∧ f a w1 = (r, w')) ∨
  (∃ e, m w = (Raise e, w') ∧ r = Raise e).
Proof.
  unfold mbind, M_bind. destruct (m w) as [[a|e] w1]; intros H.
  - left. eauto.
  - right. exists e. by inversion H.
Qed.
End Monad.

(** *** The object store *)

Lemma deref_ok r T w : frames w !! r = Some T → deref r w = (Ok T, w).
Proof. intros H. unfold deref. by rewrite H. Qed.

Lemma alloc_eq T w :
  alloc T w = (Ok (length (frames w)), with_frames (frames w ++ [T]) w).
Proof. reflexivity. Qed.

Lemma frames_alloc_new fr (U : DataFrame) : (fr ++ [U]) !! length fr = Some U.
Proof. by rewrite lookup_app_r, Nat.sub_diag. Qed.

Lemma df_getitem_eq df c T w :
  frames w !! df = Some T →
  df_getitem df c w
  = match getitem c T with
    | Some ser => (Ok ser, w)
    | None => (Raise KeyError, w)
    end.
Proof.
  intros H. unfold df_getitem. rewrite (bind_ok _ _ _ _ _ (deref_ok _ _ _ H)).
  by destruct (getitem c T).
Qed.

Lemma df_getmask_eq df mask T w :
  frames w !! df = Some T →
  df_getmask df mask w
  = (Ok (length (frames w)), with_frames (frames w ++ [getmask mask T]) w).
Proof.
  intros H. unfold df_getmask. by rewrite (bind_ok _ _ _ _ _ (deref_ok _ _ _ H)).
Qed.

Lemma df_empty_eq df T w :
  frames w !! df = Some T → df_empty df w = (Ok (empty T), w).
Proof.
  intros H. unfold df_empty. by rewrite (bind_ok _ _ _ _ _ (deref_ok _ _ _ H)).
Qed.

Lemma df_drop_eq df c T w :
  frames w !! df = Some T →
  df_drop df c w
  = (Ok (length (frames w)), with_frames (frames w ++ [drop_column c T]) w).
Proof.
  intros H. unfold df_drop. by rewrite (bind_ok _ _ _ _ _ (deref_ok _ _ _ H)).
Qed.

Lemma to_csv_eq df path T w :
  frames w !! df = Some T →
  to_csv df path w = write_file path (Csv (to_sheet T)) w.
Proof.
  intros H. unfold to_csv. by rewrite (bind_ok _ _ _ _ _ (deref_ok _ _ _ H)).
Qed.

Lemma to_excel_eq df path T w :
  frames w !! df = Some T →
  to_excel df path w = write_file path (Xlsx (to_sheet T)) w.
Proof.
  intros H. unfold to_excel. by rewrite (bind_ok _ _ _ _ _ (deref_ok _ _ _ H)).
Qed.

(** A write touches the files only. *)
Lemma write_file_inv path c w r w' :
  write_file path c w = (r, w') →
  frames w' = frames w ∧ dirs w' = dirs w ∧ cwd w' = cwd w ∧
  ((r = Ok tt ∧ (resolve w path ∉ dirs w) ∧
    files w' = <[resolve w path := c]> (files w)) ∨
   (r = Raise IsADirectoryError ∧ (resolve w path ∈ dirs w) ∧ w' = w)).
Proof.
  unfold write_file. case_decide; intros [= <- <-]; simpl; naive_solver.
Qed.

Lemma split_tier_eq df T song_name song_folder difficulty w :
  frames w !! df = Some T →
  split_tier df song_name song_folder difficulty w
  = split_tier_on T song_name song_folder difficulty w.
Proof.
  intros Hdf. unfold split_tier, split_tier_on, partition.
  pose proof (df_getitem_eq df "difficulty" T w Hdf) as H1.
  destruct (getitem "difficulty" T) as [ser|]; simpl.
  2: { by rewrite (bind_raise _ _ _ _ _ H1). }
  rewrite (bind_ok _ _ _ _ _ H1).
  rewrite (bind_ok _ _ _ _ _ (df_getmask_eq _ _ _ _ Hdf)).
  set (P := getmask (eq_scalar difficulty ser) T).
  set (w1 := with_frames (frames w ++ [P]) w).
  assert (Hnew : frames w1 !! length (frames w) = Some P)
    by apply frames_alloc_new.
  rewrite (bind_ok _ _ _ _ _ (df_empty_eq _ _ _ Hnew)).
  destruct (empty P); simpl; [done|].
  rewrite (bind_ok _ _ _ _ _ (df_drop_eq _ _ _ _ Hnew)).
  set (D := drop_column "song_name" P).
  set (w2 := with_frames (frames w1 ++ [D]) w1).
  assert (HD : ∀ w', frames w' = frames w2 → frames w' !! length (frames w1) = Some D).
  { intros w' ->. apply frames_alloc_new. }
  assert (w2 = with_frames (frames w ++ [P; D]) w) as <-.
  { unfold w2, w1, with_frames; simpl. by rewrite <- app_assoc. }
  pose proof (to_csv_eq (length (frames w1))
    (csv_file song_name song_folder difficulty) D w2 (HD w2 eq_refl)) as Hc.
  destruct (write_file _ _ w2) as [[[]|e] w3] eqn:Hw; simpl.
  - rewrite (bind_ok _ _ _ _ _ Hc), (bind_ok _ _ _ _ _ Hw).
    apply write_file_inv in Hw as (Hf & _).
    by apply to_excel_eq, HD.
  - by rewrite (bind_raise _ _ _ _ _ Hc), (bind_raise _ _ _ _ _ Hw).
Qed.

(** ** Strings *)

Section Strings.
Implicit Types (s t p r old new pre post : string) (a c : ascii).

Lemma str_app_cons a s t : String a s +:+ t = String a (s +:+ t).
Proof. reflexivity. Qed.

Lemma str_app_nil_l t : "" +:+ t = t.
Proof. reflexivity. Qed.

Lemma str_length_app s t :
  String.length (s +:+ t) = String.length s + String.length t.
Proof. induction s as [|a s IH]; [done|]. rewrite str_app_cons. simpl. by rewrite IH. Qed.

Lemma startswith_inv p s : startswith p s = true → ∃ r, s = p +:+ r.
Proof.
  revert s. induction p as [|a p IH]; intros s H.
  - by exists s.
  - destruct s as [|b s]; [done|]. simpl in H.
    destruct (Ascii.eqb_spec a b) as [->|]; [|done].
    destruct (IH _ H) as [r ->]. by exists r.
Qed.

Lemma drop_app p r : drop (String.length p) (p +:+ r) = r.
Proof.
  induction p as [|a p IH].
  - by destruct r.
  - rewrite str_app_cons. simpl. apply IH.
Qed.

(** *** [replace] and [count] *)

Lemma contains_cons old a s :
  contains old (String a s) = startswith old (String a s) || contains old s.
Proof. reflexivity. Qed.

Lemma count_cons b old a s :
  count (String b old) (String a s)
  = if startswith (String b old) (String a s)
    then S (count (String b old) (drop (String.length old) s))
    else count (String b old) s.
Proof. reflexivity. Qed.

Lemma replace_cons b old new a s :
  replace (String b old) new (String a s)
  = if startswith (String b old) (String a s)
    then new +:+ replace (String b old) new (drop (String.length old) s)
    else String a (replace (String b old) new s).
Proof. reflexivity. Qed.

Lemma count_contains old s :
  contains old s = false → count old s = 0.
Proof.
  induction s as [|a s IH]; [done|].
  rewrite contains_cons. intros [H1 H2]%orb_false_elim.
  destruct old as [|b old]; [done|].
  rewrite count_cons, H1. by apply IH.
Qed.

Lemma contains_count old s :
  contains old s = true → old ≠ "" → 1 ≤ count old s.
Proof.
  intros H Hne. induction s as [|a s IH].
  - destruct old; [done|]. discriminate H.
  - rewrite contains_cons in H. destruct old as [|b old]; [done|].
    rewrite count_cons.
    destruct (startswith (String b old) (String a s)); [lia|].
    by apply IH.
Qed.

Lemma replace_count_0 old new s :
  old ≠ "" → count old s = 0 → replace old new s = s.
Proof.
  intros Hne. induction s as [|a s IH]; intros H.
  - by destruct old.
  - destruct old as [|b old]; [done|].
    rewrite count_cons in H. rewrite replace_cons.
    destruct (startswith (String b old) (String a s)); [done|].
    by rewrite IH.
Qed.

(** The leftmost occurrence goes and the scan goes on behind it. *)
Lemma replace_count_S old new s n :
  count old s = S n →
  ∃ pre post, s = pre +:+ old +:+ post ∧ count old post = n ∧
              replace old new s = pre +:+ new +:+ replace old new post.
Proof.
  induction s as [|a s IH]; intros H; [done|].
  destruct old as [|b old]; [done|].
  rewrite count_cons in H. rewrite replace_cons.
  destruct (startswith (String b old) (String a s)) eqn:Hs.
  - apply startswith_inv in Hs as [r Hr]. rewrite str_app_cons in Hr.
    injection Hr as -> ->. rewrite drop_app in *.
    exists "", r. split; [done|]. split; [by injection H|done].
  - destruct (IH H) as (pre & post & -> & Hc & Hr).
    exists (String a pre), post. by rewrite Hr.
Qed.

(** Every occurrence found takes [length old] characters away. *)
Lemma length_replace_bounded old s n :
  String.length s ≤ n →
  String.length s
  = String.length (replace old "" s) + count old s * String.length old.
Proof.
  revert s. induction n as [|n IH]; intros s Hn.
  - destruct s; [|simpl in Hn; lia]. by destruct old.
  - destruct s as [|a s]; [by destruct old|].
    destruct old as [|b old].
    { change (replace "" "" (String a s)) with (String a (replace "" "" s)).
      simpl in *. specialize (IH s). lia. }
    rewrite count_cons, replace_cons.
    destruct (startswith (String b old) (String a s)) eqn:Hs.
    + apply startswith_inv in Hs as [r Hr]. rewrite str_app_cons in Hr.
      injection Hr as -> ->. rewrite drop_app, str_app_nil_l.
      simpl in *. rewrite str_length_app in *. f_equal.
      rewrite (IH r) at 1 by lia. lia.
    + simpl in *. f_equal. apply IH. lia.
Qed.

Lemma length_replace old s :
  String.length s
  = String.length (replace old "" s) + count old s * String.length old.
Proof. by apply (length_replace_bounded old s (String.length s)). Qed.

Lemma replace_none old new s :
  old ≠ "" → contains old s = false → replace old new s = s.
Proof. intros ? ?. by apply replace_count_0, count_contains. Qed.
End Strings.

(** ** Frames *)

Section Frames.
Implicit Types (T P : DataFrame) (r : nat * list Cell) (t c : string).

Lemma elem_of_difficulties t :
  t ∈ difficulties ↔ t = "EZ" ∨ t = "HD" ∨ t = "IN" ∨ t = "AT".
Proof.
  unfold difficulties. rewrite !elem_of_cons, elem_of_nil. tauto.
Qed.

Lemma select_fmap {A : Type} (f : A → bool) (l : list A) :
  select (f <$> l) l = List.filter f l.
Proof.
  induction l as [|x l IH]; [done|].
  rewrite fmap_cons. cbn [select List.filter]. rewrite IH. by destruct (f x).
Qed.

Lemma cell_eq_str_true t (x : Cell) : cell_eq_str t x = true ↔ x = CStr t.
Proof.
  destruct x as [s| |]; simpl; [|done..].
  rewrite String.eqb_eq. naive_solver.
Qed.

(** The partition of a tier is the table filtered on its [difficulty]
    column. *)
Lemma partition_eq t T pos :
  get_loc "difficulty" (columns T) = Some pos →
  partition t T
  = Some {| columns := columns T;
            rows := List.filter (λ r, cell_eq_str t (cell_at pos r)) (rows T) |}.
Proof.
  intros H. unfold partition, getitem, getmask, eq_scalar. rewrite H. simpl.
  do 2 f_equal. rewrite <- list_fmap_compose.
  apply (select_fmap (λ r, cell_eq_str t (cell_at pos r))).
Qed.

Lemma partition_rows t T P pos :
  get_loc "difficulty" (columns T) = Some pos →
  partition t T = Some P →
  columns P = columns T ∧
  rows P = List.filter (λ r, cell_eq_str t (cell_at pos r)) (rows T).
Proof.
  intros H. rewrite (partition_eq _ _ _ H). by intros [= <-].
Qed.

Lemma elem_of_partition t T P pos r :
  get_loc "difficulty" (columns T) = Some pos →
  partition t T = Some P →
  r ∈ rows P ↔ r ∈ rows T ∧ cell_at pos r = CStr t.
Proof.
  intros H HP. destruct (partition_rows _ _ _ _ H HP) as [_ ->].
  rewrite !list_elem_of_In, filter_In, cell_eq_str_true. done.
Qed.

(** *** Dropping a column *)

Lemma record_drop_cells c cols (cells : list Cell) :
  record (List.filter (λ x, negb (String.eqb x c)) cols) (drop_cells c cols cells)
  = List.filter (λ p, negb (String.eqb p.1 c)) (record cols cells).
Proof.
  unfold record. revert cells.
  induction cols as [|x cols IH]; intros [|v cells]; try done.
  - cbn [drop_cells]. apply zip_with_nil_r.
  - simpl. destruct (String.eqb x c); simpl; by rewrite IH.
Qed.




(** A column other than the dropped one keeps its values. *)
Lemma get_loc_drop c d (cols : list string) pos :
  get_loc c cols = Some pos → c ≠ d →
  ∃ pos', get_loc c (List.filter (λ x, negb (String.eqb x d)) cols) = Some pos' ∧
          ∀ cells, nth pos' (drop_cells d cols cells) CNaN = nth pos cells CNaN.
Proof.
  revert pos. induction cols as [|x cols IH]; intros pos H Hne; [done|].
  simpl in H. destruct (String.eqb_spec x c) as [->|Hxc].
  - injection H as <-. exists 0. simpl.
    destruct (String.eqb_spec c d); [done|]. simpl.
    rewrite String.eqb_refl. split; [done|]. by intros [|v cells].
  - destruct (get_loc c cols) as [p|] eqn:Hp; [|done].
    injection H as <-. destruct (IH p eq_refl Hne) as (p' & Hp' & Hn).
    simpl. destruct (String.eqb_spec x d) as [->|Hxd]; simpl.
    + exists p'. split; [done|]. intros [|v cells]; [|apply Hn].
      by destruct p'.
    + exists (S p'). destruct (String.eqb_spec x c); [done|].
      rewrite Hp'. split; [done|]. intros [|v cells]; [done|]. apply Hn.
Qed.

Lemma body_drop_column c T :
  body (to_sheet (drop_column c T))
  = (λ r, drop_cells c (columns T) r.2) <$> rows T.
Proof. unfold to_sheet, drop_column. simpl. by rewrite <- list_fmap_compose. Qed.

Lemma body_drop_column_lookup c T k r :
  rows T !! k = Some r →
  body (to_sheet (drop_column c T)) !! k = Some (drop_cells c (columns T) r.2).
Proof. intros H. by rewrite body_drop_column, list_lookup_fmap, H. Qed.

(** The sheet written for a frame: the header without the dropped
    column, one line per row, in the order of the rows, and each line
    the record of its row without the dropped column. *)
Lemma sheet_drop_column c T :
  let sh := to_sheet (drop_column c T) in
  header sh = List.filter (λ x, negb (String.eqb x c)) (columns T) ∧
  length (body sh) = length (rows T) ∧
  ∀ k r, rows T !! k = Some r →
    ∃ cells, body sh !! k = Some cells ∧
             record (header sh) cells
             = List.filter (λ p, negb (String.eqb p.1 c)) (record (columns T) r.2).
Proof.
  split; [done|]. split.
  - by rewrite body_drop_column, length_fmap.
  - intros k r Hk. eexists. split; [by apply body_drop_column_lookup|].
    apply record_drop_cells.
Qed.

(** What stays of a row is the values of its record, in order, whose
    column is not the dropped one: nothing more and nothing else. *)
Lemma drop_cells_values c cols (cells : list Cell) :
  drop_cells c cols cells
  = (List.filter (λ p, negb (String.eqb p.1 c)) (record cols cells)).*2.
Proof.
  unfold record. revert cells.
  induction cols as [|x cols IH]; intros [|v cells]; try reflexivity.
  simpl. destruct (String.eqb x c); simpl; by rewrite IH.
Qed.

Lemma body_drop_column_values c T :
  body (to_sheet (drop_column c T))
  = (λ r, (List.filter (λ p, negb (String.eqb p.1 c))
             (record (columns T) r.2)).*2) <$> rows T.
Proof.
  rewrite body_drop_column. apply list_fmap_ext. intros k r _.
  apply drop_cells_values.
Qed.
End Frames.

(** ** The Difficulty Partitions split the rows of the four tiers *)

(** C1, as stated, fails: the file [legacy_sheet] loads, and its second
    row, of difficulty [Legacy], is in none of the four partitions, so
    their union is not the whole table. *)
Lemma partitions_miss_other_tiers :
  rectangular legacy_sheet = true ∧
  ∃ r, r ∈ rows (of_sheet legacy_sheet) ∧
       ∀ t P, t ∈ difficulties → partition t (of_sheet legacy_sheet) = Some P →
              r ∉ rows P.
Proof.
  split; [done|].
  exists (1, [CStr "Airglow"; CStr "Legacy"; CNum 90]). split.
  - cbn. apply list_elem_of_further, list_elem_of_here.
  - intros t P Ht HP.
    apply elem_of_difficulties in Ht as [-> | [-> | [-> | ->]]];
      vm_compute in HP; injection HP as HP; subst P; cbn;
      rewrite ?list_elem_of_singleton; first [apply not_elem_of_nil | discriminate].
Qed.

(** C1 (amended): for every table with a [difficulty] column the four
    partitions exist, each holds exactly the rows of the table whose
    difficulty is its tier, no row is in two of them, and their union is
    the set of rows whose difficulty is one of the four tiers; it is the
    whole table when every row has one of the four tiers. *)
Theorem partitions_split_tier_rows (T : DataFrame) (pos : nat) :
  get_loc "difficulty" (columns T) = Some pos →
  ∃ P : string → DataFrame,
    (∀ t, partition t T = Some (P t)) ∧
    (∀ t r, r ∈ rows (P t) ↔ r ∈ rows T ∧ cell_at pos r = CStr t) ∧
    (∀ t1 t2 r, r ∈ rows (P t1) → r ∈ rows (P t2) → t1 = t2) ∧
    (∀ r, (∃ t, t ∈ difficulties ∧ r ∈ rows (P t)) ↔
          r ∈ rows T ∧ ∃ t, t ∈ difficulties ∧ cell_at pos r = CStr t) ∧
    ((∀ r, r ∈ rows T → ∃ t, t ∈ difficulties ∧ cell_at pos r = CStr t) →
     ∀ r, r ∈ rows T ↔ ∃ t, t ∈ difficulties ∧ r ∈ rows (P t)).
Proof.
  intros Hpos.
  set (P := λ t, {| columns := columns T;
                    rows := List.filter (λ r, cell_eq_str t (cell_at pos r))
                              (rows T) |}).
  assert (HP : ∀ t, partition t T = Some (P t))
    by (intros t; by apply partition_eq).
  assert (Hin : ∀ t r, r ∈ rows (P t) ↔ r ∈ rows T ∧ cell_at pos r = CStr t)
    by (intros t r; by apply elem_of_partition).
  exists P. split; [done|]. split; [done|]. split; [|split].
  - intros t1 t2 r H1 H2. apply Hin in H1 as [_ H1], H2 as [_ H2]. congruence.
  - intros r. split.
    + intros (t & Ht & Hr). apply Hin in Hr as [Hr Hc]. eauto.
    + intros (Hr & t & Ht & Hc). exists t. split; [done|]. by apply Hin.
  - intros Hall r. split.
    + intros Hr. destruct (Hall r Hr) as (t & Ht & Hc).
      exists t. split; [done|]. by apply Hin.
    + intros (t & _ & Hr). by apply Hin in Hr as [Hr _].
Qed.

Lemma partitions_split_tier_rows_witness :
  ∃ P : string → DataFrame,
    (∀ t, partition t (of_sheet legacy_sheet) = Some (P t)) ∧
    (∀ t r, r ∈ rows (P t) ↔
            r ∈ rows (of_sheet legacy_sheet) ∧ cell_at 1 r = CStr t) ∧
    (∀ t1 t2 r, r ∈ rows (P t1) → r ∈ rows (P t2) → t1 = t2) ∧
    (∀ r, (∃ t, t ∈ difficulties ∧ r ∈ rows (P t)) ↔
          r ∈ rows (of_sheet legacy_sheet) ∧
          ∃ t, t ∈ difficulties ∧ cell_at 1 r = CStr t) ∧
    ((∀ r, r ∈ rows (of_sheet legacy_sheet) →
           ∃ t, t ∈ difficulties ∧ cell_at 1 r = CStr t) →
     ∀ r, r ∈ rows (of_sheet legacy_sheet) ↔
          ∃ t, t ∈ difficulties ∧ r ∈ rows (P t)).
Proof. apply (partitions_split_tier_rows (of_sheet legacy_sheet) 1). reflexivity. Defined.

(** ** The Filename Normalizer *)

(** C3, as stated, fails on a name with two markers: both occurrences
    go, so the new name is not the old one with one occurrence cut out. *)
Lemma remove_combined_suffix_cuts_twice :
  contains "_combined" "a_combined_combined.csv" = true ∧
  (remove_combined_suffix "a_combined_combined.csv" twice_marked).1 = Ok "a.csv" ∧
  ¬ ∃ pre post, "a_combined_combined.csv" = pre +:+ "_combined" +:+ post ∧
                "a.csv" = pre +:+ post.
Proof.
  split; [done|]. split; [by vm_compute|].
  intros (pre & post & H1 & H2).
  apply (f_equal String.length) in H1, H2.
  rewrite !str_length_app in H1. rewrite str_length_app in H2. simpl in *. lia.
Qed.

(** C3 (amended): a name without the marker is returned as it is and the
    world is left alone, so normalizing it again changes nothing.  A name
    with the marker is renamed to, and returned as, the name with every
    occurrence that a left-to-right scan finds removed: at least one, nine
    characters each; the leftmost occurrence is cut out and what follows
    it is treated the same way, so that exactly one occurrence goes when
    the scan finds one. *)
Theorem remove_combined_suffix_spec (name : string) (w : World) :
  (contains "_combined" name = false →
   remove_combined_suffix name w = (Ok name, w) ∧
   (remove_combined_suffix name ≫= remove_combined_suffix) w = (Ok name, w)) ∧
  (contains "_combined" name = true →
   let new_name := replace "_combined" "" name in
   remove_combined_suffix name w
   = (os_rename name new_name ≫= λ _, mret new_name) w ∧
   1 ≤ count "_combined" name ∧
   String.length name
   = String.length new_name + 9 * count "_combined" name ∧
   (∃ pre post, name = pre +:+ "_combined" +:+ post ∧
                S (count "_combined" post) = count "_combined" name ∧
                new_name = pre +:+ replace "_combined" "" post) ∧
   (count "_combined" name = 1 →
    ∃ pre post, name = pre +:+ "_combined" +:+ post ∧
                new_name = pre +:+ post)).
Proof.
  split; intros Hc.
  - assert (H : remove_combined_suffix name w = (Ok name, w))
      by (unfold remove_combined_suffix; by rewrite Hc).
    split; [done|]. by rewrite (bind_ok _ _ _ _ _ H).
  - intros new_name.
    pose proof (contains_count _ _ Hc ltac:(done)) as Hn.
    split; [|split; [done|split; [|split]]].
    + unfold remove_combined_suffix. by rewrite Hc.
    + unfold new_name. rewrite (length_replace "_combined" name) at 1.
      simpl. lia.
    + destruct (count "_combined" name) as [|n] eqn:Hk; [lia|].
      destruct (replace_count_S _ "" _ _ Hk) as (pre & post & -> & Hp & Hr).
      exists pre, post. split; [done|]. split; [by rewrite Hp|].
      unfold new_name. by rewrite Hr, str_app_nil_l.
    + intros Hk.
      destruct (replace_count_S _ "" _ _ Hk) as (pre & post & -> & Hp & Hr).
      exists pre, post. split; [done|].
      unfold new_name. by rewrite Hr, str_app_nil_l, (replace_count_0 _ _ post).
Qed.

Lemma remove_combined_suffix_spec_witness :
  remove_combined_suffix "song.csv" twice_marked = (Ok "song.csv", twice_marked) ∧
  ∃ pre post, "song_combined.csv" = pre +:+ "_combined" +:+ post ∧
              replace "_combined" "" "song_combined.csv" = pre +:+ post.
Proof.
  split.
  - apply (remove_combined_suffix_spec "song.csv" twice_marked). reflexivity.
  - apply (remove_combined_suffix_spec "song_combined.csv" twice_marked);
      reflexivity.
Defined.

(** ** Paths *)

Section Paths.
Implicit Types (a b s x y folder : string).

Lemma startswith_sep_app s x y :
  startswith "/" x = startswith "/" y →
  startswith "/" (s +:+ x) = startswith "/" (s +:+ y).
Proof. destruct s as [|c s]; [done|]. by rewrite !str_app_cons. Qed.

Lemma join_abs a b1 b2 :
  startswith "/" b1 = startswith "/" b2 →
  startswith "/" (os_path_join a b1) = startswith "/" (os_path_join a b2).
Proof.
  intros H. unfold os_path_join. rewrite H.
  destruct (startswith "/" b2) eqn:Hb; [by rewrite Hb|].
  destruct (_ || _); repeat apply startswith_sep_app; congruence.
Qed.

Lemma join_inj a b1 b2 :
  startswith "/" b1 = startswith "/" b2 →
  os_path_join a b1 = os_path_join a b2 → b1 = b2.
Proof.
  intros H. unfold os_path_join. rewrite H.
  destruct (startswith "/" b2); [done|].
  destruct (_ || _); intros E; repeat apply (inj (String.app _)) in E; done.
Qed.

(** Two names built on the same song land on different paths of the
    same folder. *)
Lemma sibling_paths_ne w folder s x y :
  x ≠ y → startswith "/" x = startswith "/" y →
  resolve w (os_path_join folder (s +:+ x))
  ≠ resolve w (os_path_join folder (s +:+ y)).
Proof.
  intros Hne Hxy E. apply Hne.
  pose proof (startswith_sep_app s x y Hxy) as Hs.
  apply join_inj in E; [|by apply join_abs].
  apply join_inj in E; [|done].
  by apply (inj (String.app _)) in E.
Qed.
End Paths.

(** ** The loop of [split_by_difficulty] *)

Section Partitioner.
Variables (df : nat) (T : DataFrame) (song_name : Cell) (song_folder : string).

Local Ltac ne_literals :=
  let E := fresh in
  first [ done | intros E; vm_compute in E; discriminate E ].

Lemma tier_files_ne w t1 t2 :
  t1 ∈ difficulties → t2 ∈ difficulties →
  (resolve w (csv_file song_name song_folder t1)
   = resolve w (csv_file song_name song_folder t2) → t1 = t2) ∧
  (resolve w (excel_file song_name song_folder t1)
   = resolve w (excel_file song_name song_folder t2) → t1 = t2) ∧
  resolve w (csv_file song_name song_folder t1)
  ≠ resolve w (excel_file song_name song_folder t2).
Proof.
  intros [-> | [-> | [-> | ->]]]%elem_of_difficulties
         [-> | [-> | [-> | ->]]]%elem_of_difficulties;
    unfold csv_file, excel_file;
    (split; [|split]); try done;
    try (intros E; exfalso; revert E);
    apply sibling_paths_ne; ne_literals.
Qed.

Lemma song_file_ne_tier w t :
  t ∈ difficulties →
  resolve w (song_excel_file song_name song_folder)
  ≠ resolve w (csv_file song_name song_folder t) ∧
  resolve w (song_excel_file song_name song_folder)
  ≠ resolve w (excel_file song_name song_folder t).
Proof.
  intros [-> | [-> | [-> | ->]]]%elem_of_difficulties;
    unfold csv_file, excel_file, song_excel_file;
    split; apply sibling_paths_ne; ne_literals.
Qed.

(** What one turn of the loop does, read off its result. *)
Lemma split_tier_inv t w r w' :
  frames w !! df = Some T →
  split_tier df song_name song_folder t w = (r, w') →
  cwd w' = cwd w ∧ dirs w' = dirs w ∧
  (∃ ext, frames w' = frames w ++ ext) ∧
  match partition t T with
  | None => r = Raise KeyError ∧ files w' = files w
  | Some P =>
      if empty P then r = Ok tt ∧ files w' = files w
      else
        let c := resolve w (csv_file song_name song_folder t) in
        let x := resolve w (excel_file song_name song_folder t) in
        (r = Ok tt ∧ (c ∉ dirs w) ∧ (x ∉ dirs w) ∧
         files w' = <[x := Xlsx (tier_sheet P)]> (<[c := Csv (tier_sheet P)]> (files w))) ∨
        (r = Raise IsADirectoryError ∧ (c ∈ dirs w) ∧ files w' = files w) ∨
        (r = Raise IsADirectoryError ∧ (c ∉ dirs w) ∧ (x ∈ dirs w) ∧
         files w' = <[c := Csv (tier_sheet P)]> (files w))
  end.
Proof.
  intros Hdf. rewrite (split_tier_eq _ _ _ _ _ _ Hdf). unfold split_tier_on.
  destruct (partition t T) as [P|].
  2: { intros [= <- <-]. split_and!; try done. exists []. by rewrite app_nil_r. }
  destruct (empty P).
  { intros [= <- <-]. split_and!; try done. simpl. by eexists. }
  intros H. apply bind_inv in H as [([] & w1 & H1 & H2)|(e & H1 & ->)].
  - apply write_file_inv in H1 as (Hf1 & Hd1 & Hc1 & [(_ & Hn1 & He1)|(? & _)]);
      [|done].
    assert (Hres : ∀ p, resolve w1 p = resolve w p)
      by (intros p; unfold resolve; by rewrite Hc1).
    simpl in Hf1, Hd1, Hc1, Hn1, He1.
    change (resolve (with_frames _ w)) with (resolve w) in *.
    apply write_file_inv in H2 as (Hf2 & Hd2 & Hc2 & [(-> & Hn2 & He2)|(-> & Hn2 & ->)]);
      rewrite Hres, ?Hd1 in *.
    + split_and!; [congruence|congruence| |].
      { rewrite Hf2, Hf1. by eexists. }
      left. split_and!; try done. by rewrite He2, He1.
    + split_and!; [congruence|congruence| |].
      { rewrite Hf1. by eexists. }
      right. right. by split_and!.
  - apply write_file_inv in H1 as (Hf1 & Hd1 & Hc1 & [(? & _)|(-> & Hn1 & ->)]);
      [done|].
    split_and!; try done; simpl; [by eexists|]. right. left. by split_and!.
Qed.

(** What the loop leaves behind, whether it ends or raises: the frames
    that were there, the same directories, and files that are either as
    before or the file of a tier with a non-empty partition. *)
Lemma split_loop_inv ts w r w' :
  frames w !! df = Some T →
  for_each ts (split_tier df song_name song_folder) w = (r, w') →
  cwd w' = cwd w ∧ dirs w' = dirs w ∧
  (∃ ext, frames w' = frames w ++ ext) ∧
  ∀ p, files w' !! p = files w !! p ∨
       ∃ t P, t ∈ ts ∧ partition t T = Some P ∧ empty P = false ∧
         ((p = resolve w (csv_file song_name song_folder t) ∧
           files w' !! p = Some (Csv (tier_sheet P))) ∨
          (p = resolve w (excel_file song_name song_folder t) ∧
           files w' !! p = Some (Xlsx (tier_sheet P)))).
Proof.
  revert w. induction ts as [|t ts IH]; intros w Hdf H.
  { injection H as <- <-. split_and!; try done; [|by left].
    exists []. by rewrite app_nil_r. }
  cbn [for_each] in H.
  apply bind_inv in H as [([] & w1 & H1 & H2)|(e & H1 & ->)].
  - destruct (split_tier_inv _ _ _ _ Hdf H1) as (Hc1 & Hd1 & [ext1 Hf1] & Ht).
    assert (Hdf1 : frames w1 !! df = Some T)
      by (rewrite Hf1; by apply lookup_app_l_Some).
    destruct (IH _ Hdf1 H2) as (Hc2 & Hd2 & [ext2 Hf2] & Hp).
    assert (Hres : ∀ p, resolve w1 p = resolve w p)
      by (intros p; unfold resolve; by rewrite Hc1).
    split_and!; [congruence|congruence| |].
    { exists (ext1 ++ ext2). by rewrite Hf2, Hf1, app_assoc. }
    intros p. destruct (Hp p) as [Hsame|(t' & P & Ht' & HP & HE & Hw)].
    2: { right. exists t', P. rewrite !Hres in Hw.
         split_and!; try done. by apply list_elem_of_further. }
    rewrite Hsame. clear Hp Hsame.
    destruct (partition t T) as [P|] eqn:HP; [|left; by destruct Ht as [_ ->]].
    destruct (empty P) eqn:HE; [left; by destruct Ht as [_ ->]|].
    destruct Ht as [(_ & _ & _ & ->)|[(? & _)|(? & _)]]; [|done..].
    destruct (decide (p = resolve w (excel_file song_name song_folder t))) as [->|Hx].
    { right. exists t, P. split_and!; try done; [apply list_elem_of_here|].
      right. by rewrite lookup_insert_eq. }
    rewrite lookup_insert_ne by done.
    destruct (decide (p = resolve w (csv_file song_name song_folder t))) as [->|Hcsv].
    { right. exists t, P. split_and!; try done; [apply list_elem_of_here|].
      left. by rewrite lookup_insert_eq. }
    left. by rewrite lookup_insert_ne.
  - destruct (split_tier_inv _ _ _ _ Hdf H1) as (Hc1 & Hd1 & Hf1 & Ht).
    split_and!; try done.
    intros p.
    destruct (partition t T) as [P|] eqn:HP; [|left; by destruct Ht as [_ ->]].
    destruct (empty P) eqn:HE; [by destruct Ht|].
    destruct Ht as [(? & _)|[(_ & _ & ->)|(_ & _ & _ & ->)]]; [done|by left|].
    destruct (decide (p = resolve w (csv_file song_name song_folder t))) as [->|Hcsv].
    { right. exists t, P. split_and!; try done; [apply list_elem_of_here|].
      left. by rewrite lookup_insert_eq. }
    left. by rewrite lookup_insert_ne.
Qed.

(** On a table with a [difficulty] column the loop can only be stopped
    by a directory that sits where a file is to be written. *)
Lemma split_loop_ok ts w :
  frames w !! df = Some T →
  is_Some (get_loc "difficulty" (columns T)) →
  (∀ t P, t ∈ ts → partition t T = Some P → empty P = false →
          (resolve w (csv_file song_name song_folder t) ∉ dirs w) ∧
          (resolve w (excel_file song_name song_folder t) ∉ dirs w)) →
  ∃ w', for_each ts (split_tier df song_name song_folder) w = (Ok tt, w').
Proof.
  intros Hdf [pos Hpos]. revert w Hdf.
  induction ts as [|t ts IH]; intros w Hdf Hfree; [by eexists|].
  cbn [for_each].
  destruct (split_tier df song_name song_folder t w) as [r w1] eqn:H1.
  destruct (split_tier_inv _ _ _ _ Hdf H1) as (Hc1 & Hd1 & [ext1 Hf1] & Ht).
  assert (r = Ok tt) as ->.
  { destruct (partition t T) as [P|] eqn:HP;
      [|by rewrite (partition_eq _ _ _ Hpos) in HP].
    destruct (empty P) eqn:HE; [by destruct Ht|].
    destruct (Hfree t P (list_elem_of_here _ _) HP HE) as [Hn1 Hn2].
    by destruct Ht as [(? & _)|[(_ & ? & _)|(_ & _ & ? & _)]]. }
  rewrite (bind_ok _ _ _ _ _ H1). apply IH.
  - rewrite Hf1. by apply lookup_app_l_Some.
  - intros t' P Ht'. unfold resolve. rewrite Hc1, Hd1.
    apply Hfree. by apply list_elem_of_further.
Qed.

(** When the loop ends, every tier with a non-empty partition has its
    two files, holding the sheet of that partition. *)
Lemma split_loop_content ts w w' :
  frames w !! df = Some T →
  NoDup ts → (∀ t, t ∈ ts → t ∈ difficulties) →
  for_each ts (split_tier df song_name song_folder) w = (Ok tt, w') →
  ∀ t P, t ∈ ts → partition t T = Some P → empty P = false →
    files w' !! resolve w (csv_file song_name song_folder t)
    = Some (Csv (tier_sheet P)) ∧
    files w' !! resolve w (excel_file song_name song_folder t)
    = Some (Xlsx (tier_sheet P)).
Proof.
  revert w. induction ts as [|t0 ts IH]; intros w Hdf Hnd Hsub H t P Ht HP HE.
  { by apply elem_of_nil in Ht. }
  apply NoDup_cons in Hnd as [Hnotin Hnd].
  cbn [for_each] in H.
  apply bind_inv in H as [([] & w1 & H1 & H2)|(e & _ & ?)]; [|done].
  destruct (split_tier_inv _ _ _ _ Hdf H1) as (Hc1 & Hd1 & [ext1 Hf1] & Ht0).
  assert (Hdf1 : frames w1 !! df = Some T)
    by (rewrite Hf1; by apply lookup_app_l_Some).
  assert (Hres : ∀ p, resolve w1 p = resolve w p)
    by (intros p; unfold resolve; by rewrite Hc1).
  apply elem_of_cons in Ht as [->|Ht].
  2: { rewrite <- !Hres. apply (IH w1); try done.
       intros ? ?. by apply Hsub, list_elem_of_further. }
  rewrite HP, HE in Ht0.
  destruct Ht0 as [(_ & _ & _ & Hfiles)|[(? & _)|(? & _)]]; [|done..].
  destruct (split_loop_inv _ _ _ _ Hdf1 H2) as (_ & _ & _ & Hp).
  assert (Ht0in : t0 ∈ difficulties) by apply Hsub, list_elem_of_here.
  assert (Hlater : ∀ p,
    (∀ t', t' ∈ ts → p ≠ resolve w (csv_file song_name song_folder t') ∧
                     p ≠ resolve w (excel_file song_name song_folder t')) →
    files w' !! p = files w1 !! p).
  { intros p Hne. destruct (Hp p) as [->|(t' & P' & Ht' & _ & _ & Hw)]; [done|].
    rewrite !Hres in Hw. destruct (Hne t' Ht') as [Hn1 Hn2].
    by destruct Hw as [[? _]|[? _]]. }
  assert (Hts : ∀ t', t' ∈ ts → t' ∈ difficulties ∧ t0 ≠ t').
  { intros t' Ht'. split; [by apply Hsub, list_elem_of_further|].
    by intros <-. }
  split.
  - rewrite Hlater.
    + rewrite Hfiles, lookup_insert_ne, lookup_insert_eq; [done|].
      apply not_eq_sym, (tier_files_ne w t0 t0); done.
    + intros t' [Hd' Hne]%Hts. destruct (tier_files_ne w t0 t' Ht0in Hd') as (E1 & _ & E3).
      split; [|done]. intros E. by apply Hne, E1.
  - rewrite Hlater.
    + by rewrite Hfiles, lookup_insert_eq.
    + intros t' [Hd' Hne]%Hts.
      destruct (tier_files_ne w t0 t' Ht0in Hd') as (_ & E2 & _).
      destruct (tier_files_ne w t' t0 Hd' Ht0in) as (_ & _ & E3).
      split; [by apply not_eq_sym|]. intros E. by apply Hne, E2.
Qed.
End Partitioner.

(** ** The per-tier files *)

(** C2: on a table [T] with a [difficulty] column, when
    [split_by_difficulty] returns, every tier with a non-empty partition
    [P] has its [.csv] and its [.xlsx] file, and both hold the same
    sheet: the header is the columns of [T] without [song_name], in
    their order; [P] is the rows of [T] of that tier, in the order of
    [T]; and the lines of the sheet are, row by row of [P], the values of
    the row whose column is not [song_name], no other value before,
    between or after them. *)
Theorem split_by_difficulty_writes_partition
  (df : nat) (T : DataFrame) (song_name : Cell) (song_folder : string)
  (w w' : World) (pos : nat) (t : string) (P : DataFrame) :
  frames w !! df = Some T →
  get_loc "difficulty" (columns T) = Some pos →
  t ∈ difficulties → partition t T = Some P → empty P = false →
  split_by_difficulty df song_name song_folder w = (Ok tt, w') →
  ∃ sh,
    files w' !! resolve w (csv_file song_name song_folder t) = Some (Csv sh) ∧
    files w' !! resolve w (excel_file song_name song_folder t) = Some (Xlsx sh) ∧
    header sh
    = List.filter (λ c, negb (String.eqb c "song_name")) (columns T) ∧
    rows P = List.filter (λ r, cell_eq_str t (cell_at pos r)) (rows T) ∧
    body sh
    = (λ r, (List.filter (λ p, negb (String.eqb p.1 "song_name"))
               (record (columns T) r.2)).*2) <$> rows P.
Proof.
  intros Hdf Hpos Ht HP HE Hrun.
  assert (Hnd : NoDup difficulties)
    by exact (bool_decide_unpack (NoDup difficulties) I).
  destruct (split_loop_content df T song_name song_folder difficulties w w'
              Hdf Hnd (λ _ H, H) Hrun t P Ht HP HE) as [Hcsv Hxlsx].
  destruct (partition_rows _ _ _ _ Hpos HP) as [Hcols Hrows].
  exists (tier_sheet P). split_and!; try done.
  - unfold tier_sheet. simpl. by rewrite Hcols.
  - unfold tier_sheet. by rewrite body_drop_column_values, Hcols.
Qed.

Lemma split_by_difficulty_writes_partition_witness :
  ∃ sh,
    files (split_by_difficulty 0 (CStr "Airglow") "/w/generated_files/Airglow"
             airglow_loaded).2
      !! "/w/generated_files/Airglow/Airglow_HD.csv" = Some (Csv sh) ∧
    files (split_by_difficulty 0 (CStr "Airglow") "/w/generated_files/Airglow"
             airglow_loaded).2
      !! "/w/generated_files/Airglow/Airglow_HD.xlsx" = Some (Xlsx sh) ∧
    header sh = ["difficulty"; "score"] ∧
    body sh = [[CStr "HD"; CNum 90]; [CStr "HD"; CNum 80]].
Proof.
  destruct (split_by_difficulty_writes_partition 0 (of_sheet airglow)
              (CStr "Airglow") "/w/generated_files/Airglow" airglow_loaded
              (split_by_difficulty 0 (CStr "Airglow")
                 "/w/generated_files/Airglow" airglow_loaded).2
              1 "HD"
              {| columns := header airglow;
                 rows := [(1, [CStr "Airglow"; CStr "HD"; CNum 90]);
                          (2, [CStr "Airglow"; CStr "HD"; CNum 80])] |})
    as (sh & H1 & H2 & H3 & _ & H5).
  - reflexivity.
  - reflexivity.
  - vm_compute. apply list_elem_of_further, list_elem_of_here.
  - reflexivity.
  - reflexivity.
  - by vm_compute.
  - exists sh. split_and!; [exact H1|exact H2|exact H3|exact H5].
Defined.

(** C4: for a tier whose partition is empty, the turn of the loop for
    that tier ends without raising and leaves every file and directory as
    it was; and whatever [split_by_difficulty] as a whole does, ending or
    raising, the two paths of that tier hold after it what they held
    before, nothing if there was nothing. *)
Theorem split_by_difficulty_skips_empty_tier
  (df : nat) (T : DataFrame) (song_name : Cell) (song_folder : string)
  (w : World) (t : string) (P : DataFrame) :
  frames w !! df = Some T →
  t ∈ difficulties → partition t T = Some P → empty P = true →
  (∃ w1, split_tier df song_name song_folder t w = (Ok tt, w1) ∧
         files w1 = files w ∧ dirs w1 = dirs w) ∧
  ∀ r w', split_by_difficulty df song_name song_folder w = (r, w') →
    files w' !! resolve w (csv_file song_name song_folder t)
    = files w !! resolve w (csv_file song_name song_folder t) ∧
    files w' !! resolve w (excel_file song_name song_folder t)
    = files w !! resolve w (excel_file song_name song_folder t) ∧
    dirs w' = dirs w.
Proof.
  intros Hdf Ht HP HE. split.
  - destruct (split_tier df song_name song_folder t w) as [r w1] eqn:H.
    destruct (split_tier_inv _ _ _ _ _ _ _ _ Hdf H) as (_ & Hd & _ & Hcase).
    rewrite HP, HE in Hcase. destruct Hcase as [-> Hf]. by exists w1.
  - intros r w' H.
    destruct (split_loop_inv _ _ _ _ _ _ _ _ Hdf H) as (_ & Hd & _ & Hp).
    assert (Hother : ∀ t' P', partition t' T = Some P' → empty P' = false → t ≠ t')
      by (intros t' P' HP' HE' <-; congruence).
    split_and!; [| |done].
    + destruct (Hp (resolve w (csv_file song_name song_folder t)))
        as [->|(t' & P' & Ht' & HP' & HE' & Hw)]; [done|].
      destruct (tier_files_ne song_name song_folder w t t' Ht Ht') as (E1 & _ & E3).
      destruct Hw as [[E _]|[E _]]; [|done].
      by destruct (Hother t' P' HP' HE' (E1 E)).
    + destruct (Hp (resolve w (excel_file song_name song_folder t)))
        as [->|(t' & P' & Ht' & HP' & HE' & Hw)]; [done|].
      destruct (tier_files_ne song_name song_folder w t t' Ht Ht') as (_ & E2 & _).
      destruct (tier_files_ne song_name song_folder w t' t Ht' Ht) as (_ & _ & E3).
      destruct Hw as [[E _]|[E _]]; [by destruct E3|].
      by destruct (Hother t' P' HP' HE' (E2 E)).
Qed.

Lemma split_by_difficulty_skips_empty_tier_witness :
  (∃ w1, split_tier 0 (CStr "Airglow") "/w/generated_files/Airglow" "AT"
           airglow_loaded = (Ok tt, w1) ∧
         files w1 = files airglow_loaded ∧ dirs w1 = dirs airglow_loaded) ∧
  ∀ r w', split_by_difficulty 0 (CStr "Airglow") "/w/generated_files/Airglow"
            airglow_loaded = (r, w') →
    files w' !! "/w/generated_files/Airglow/Airglow_AT.csv" = None ∧
    files w' !! "/w/generated_files/Airglow/Airglow_AT.xlsx" = None ∧
    dirs w' = dirs airglow_loaded.
Proof.
  apply (split_by_difficulty_skips_empty_tier 0 (of_sheet airglow)
           (CStr "Airglow") "/w/generated_files/Airglow" airglow_loaded "AT"
           {| columns := header airglow; rows := [] |}).
  - reflexivity.
  - vm_compute. do 3 apply list_elem_of_further. apply list_elem_of_here.
  - reflexivity.
  - reflexivity.
Defined.

(** ** The whole-song export *)

Lemma export_song_inv df T song_name song_folder w r w' :
  frames w !! df = Some T →
  export_song df song_name song_folder w = (r, w') →
  let p := resolve w (song_excel_file song_name song_folder) in
  cwd w' = cwd w ∧ dirs w' = dirs w ∧
  frames w' = frames w ++ [drop_column "song_name" T] ∧
  ((r = Ok tt ∧ (p ∉ dirs w) ∧
    files w' = <[p := Xlsx (to_sheet (drop_column "song_name" T))]> (files w)) ∨
   (r = Raise IsADirectoryError ∧ (p ∈ dirs w) ∧ files w' = files w)).
Proof.
  intros Hdf. unfold export_song.
  rewrite (bind_ok _ _ _ _ _ (df_drop_eq _ "song_name" _ _ Hdf)).
  rewrite (to_excel_eq _ _ (drop_column "song_name" T))
    by apply frames_alloc_new.
  intros H. apply write_file_inv in H as (Hf & Hd & Hc & Hcase).
  split_and!; try done.
  destruct Hcase as [(-> & Hn & He)|(-> & Hn & ->)]; [left|right]; done.
Qed.

(** C9: the whole-song export leaves every frame of the store as it was,
    the loaded table included, whether the write succeeds or raises; so
    the partitioner called next with the same reference reads every
    column of the loaded table, [song_name] too, and each of its turns
    works on the loaded table. *)
Theorem export_song_keeps_loaded_table
  (df : nat) (T : DataFrame) (song_name : Cell) (song_folder : string)
  (w w' : World) (r : Result unit) :
  frames w !! df = Some T →
  export_song df song_name song_folder w = (r, w') →
  (∀ k U, frames w !! k = Some U → frames w' !! k = Some U) ∧
  frames w' !! df = Some T ∧
  (∀ c, df_getitem df c w'
        = match getitem c T with
          | Some ser => (Ok ser, w')
          | None => (Raise KeyError, w')
          end) ∧
  (∀ t, split_tier df song_name song_folder t w'
        = split_tier_on T song_name song_folder t w').
Proof.
  intros Hdf H.
  destruct (export_song_inv _ _ _ _ _ _ _ Hdf H) as (_ & _ & Hf & _).
  assert (Hold : ∀ k U, frames w !! k = Some U → frames w' !! k = Some U)
    by (intros k U Hk; rewrite Hf; by apply lookup_app_l_Some).
  split_and!; [done|by apply Hold| |].
  - intros c. by apply df_getitem_eq, Hold.
  - intros t. by apply split_tier_eq, Hold.
Qed.

Lemma export_song_keeps_loaded_table_witness :
  frames (export_song 0 (CStr "Airglow") "/w/generated_files/Airglow"
            airglow_loaded).2 !! 0 = Some (of_sheet airglow) ∧
  (df_getitem 0 "song_name"
     (export_song 0 (CStr "Airglow") "/w/generated_files/Airglow"
        airglow_loaded).2).1
  = Ok [(0, CStr "Airglow"); (1, CStr "Airglow"); (2, CStr "Airglow");
        (3, CStr "Airglow")].
Proof.
  destruct (export_song_keeps_loaded_table 0 (of_sheet airglow)
              (CStr "Airglow") "/w/generated_files/Airglow" airglow_loaded
              (export_song 0 (CStr "Airglow") "/w/generated_files/Airglow"
                 airglow_loaded).2
              (export_song 0 (CStr "Airglow") "/w/generated_files/Airglow"
                 airglow_loaded).1)
    as (_ & H2 & H3 & _).
  - reflexivity.
  - by destruct (export_song _ _ _ _).
  - split; [exact H2|]. by rewrite H3.
Defined.

Lemma export_song_ok df T song_name song_folder w :
  frames w !! df = Some T →
  resolve w (song_excel_file song_name song_folder) ∉ dirs w →
  ∃ w', export_song df song_name song_folder w = (Ok tt, w') ∧
        cwd w' = cwd w ∧ dirs w' = dirs w ∧
        frames w' = frames w ++ [drop_column "song_name" T] ∧
        files w' = <[resolve w (song_excel_file song_name song_folder)
                     := Xlsx (to_sheet (drop_column "song_name" T))]> (files w).
Proof.
  intros Hdf Hn.
  destruct (export_song df song_name song_folder w) as [r w'] eqn:H.
  destruct (export_song_inv _ _ _ _ _ _ _ Hdf H)
    as (Hc & Hd & Hf & [(-> & _ & He)|(_ & ? & _)]); [|done].
  by exists w'.
Qed.

(** ** Rows of a tier outside the four *)

(** The partitioner does not write to the path of the whole-song
    spreadsheet. *)
Lemma split_keeps_song_file df T song_name song_folder w r w' :
  frames w !! df = Some T →
  split_by_difficulty df song_name song_folder w = (r, w') →
  files w' !! resolve w (song_excel_file song_name song_folder)
  = files w !! resolve w (song_excel_file song_name song_folder).
Proof.
  intros Hdf H.
  destruct (split_loop_inv _ _ _ _ _ _ _ _ Hdf H) as (_ & _ & _ & Hp).
  destruct (Hp (resolve w (song_excel_file song_name song_folder)))
    as [->|(t & P & Ht & _ & _ & Hw)]; [done|].
  destruct (song_file_ne_tier song_name song_folder w t Ht) as [E1 E2].
  by destruct Hw as [[? _]|[? _]].
Qed.

(** C10: a record of table [T] whose difficulty is none of the four tiers
    is in no partition, and its line is in the sheet of no partition;
    every path that [split_by_difficulty] leaves changed, whether it ends
    or raises, holds the sheet of one of the four partitions; when the
    whole-song export returns, its file has the record's line, the
    values of the record's columns other than [song_name], at the
    record's position, and the partitioner that runs next leaves that
    file as it is. *)
Theorem other_tier_record_only_in_song_export
  (df : nat) (T : DataFrame) (song_name : Cell) (song_folder : string)
  (w : World) (pos k : nat) (r : nat * list Cell) :
  frames w !! df = Some T →
  get_loc "difficulty" (columns T) = Some pos →
  rows T !! k = Some r →
  (∀ t, t ∈ difficulties → cell_at pos r ≠ CStr t) →
  (∀ t P, t ∈ difficulties → partition t T = Some P →
     (r ∉ rows P) ∧
     (drop_cells "song_name" (columns T) r.2 ∉ body (tier_sheet P))) ∧
  (∀ res w' p,
     split_by_difficulty df song_name song_folder w = (res, w') →
     files w' !! p ≠ files w !! p →
     ∃ t P, t ∈ difficulties ∧ partition t T = Some P ∧
            (files w' !! p = Some (Csv (tier_sheet P)) ∨
             files w' !! p = Some (Xlsx (tier_sheet P)))) ∧
  (∀ w', export_song df song_name song_folder w = (Ok tt, w') →
     ∃ sh,
       files w' !! resolve w (song_excel_file song_name song_folder)
       = Some (Xlsx sh) ∧
       body sh !! k = Some (drop_cells "song_name" (columns T) r.2) ∧
       drop_cells "song_name" (columns T) r.2
       = (List.filter (λ p, negb (String.eqb p.1 "song_name"))
            (record (columns T) r.2)).*2 ∧
       ∀ res w'',
         split_by_difficulty df song_name song_folder w' = (res, w'') →
         files w'' !! resolve w (song_excel_file song_name song_folder)
         = Some (Xlsx sh)).
Proof.
  intros Hdf Hpos Hk Hother. split_and!.
  - intros t P Ht HP.
    destruct (partition_rows _ _ _ _ Hpos HP) as [Hcols Hrows].
    assert (Hin : ∀ r', r' ∈ rows P → cell_at pos r' = CStr t)
      by (intros r' Hr'; by apply (elem_of_partition t T P pos r' Hpos HP)).
    split.
    + intros Hr. by apply (Hother t Ht), Hin.
    + unfold tier_sheet. rewrite body_drop_column, Hcols.
      intros (r' & Heq & Hr')%list_elem_of_fmap.
      destruct (get_loc_drop "difficulty" "song_name" _ _ Hpos ltac:(done))
        as (pos' & _ & Hnth).
      apply (Hother t Ht). rewrite <- (Hin r' Hr').
      unfold cell_at. by rewrite <- !Hnth, Heq.
  - intros res w' p H Hne.
    destruct (split_loop_inv _ _ _ _ _ _ _ _ Hdf H) as (_ & _ & _ & Hp).
    destruct (Hp p) as [?|(t & P & Ht & HP & _ & Hw)]; [done|].
    exists t, P. split_and!; [done|done|].
    destruct Hw as [[_ ->]|[_ ->]]; [by left|by right].
  - intros w' H.
    destruct (export_song_inv _ _ _ _ _ _ _ Hdf H)
      as (Hc & _ & Hfr & [(_ & _ & Hf)|(? & _)]); [|done].
    assert (Hfile : files w' !! resolve w (song_excel_file song_name song_folder)
                    = Some (Xlsx (to_sheet (drop_column "song_name" T))))
      by (by rewrite Hf, lookup_insert_eq).
    exists (to_sheet (drop_column "song_name" T)).
    split_and!; [done|by apply body_drop_column_lookup|
                 apply drop_cells_values|].
    intros res w'' Hsplit.
    assert (Hdf' : frames w' !! df = Some T)
      by (rewrite Hfr; by apply lookup_app_l_Some).
    pose proof (split_keeps_song_file _ _ _ _ _ _ _ Hdf' Hsplit) as Hkeep.
    assert (Hres : ∀ p, resolve w' p = resolve w p)
      by (intros p; unfold resolve; by rewrite Hc).
    rewrite Hres in Hkeep. by rewrite Hkeep.
Qed.

Lemma other_tier_record_only_in_song_export_witness :
  (∀ t P, t ∈ difficulties → partition t (of_sheet legacy_sheet) = Some P →
     ((1, [CStr "Airglow"; CStr "Legacy"; CNum 90]) ∉ rows P) ∧
     ([CStr "Legacy"; CNum 90] ∉ body (tier_sheet P))) ∧
  ∃ sh,
    files (export_song 0 (CStr "Airglow") "/w/generated_files/Airglow"
             legacy_loaded).2
      !! "/w/generated_files/Airglow/Airglow.xlsx" = Some (Xlsx sh) ∧
    body sh !! 1 = Some [CStr "Legacy"; CNum 90].
Proof.
  destruct (other_tier_record_only_in_song_export 0 (of_sheet legacy_sheet)
              (CStr "Airglow") "/w/generated_files/Airglow" legacy_loaded 1 1
              (1, [CStr "Airglow"; CStr "Legacy"; CNum 90]))
    as (H1 & _ & H3).
  - reflexivity.
  - reflexivity.
  - reflexivity.
  - intros t [-> | [-> | [-> | ->]]]%elem_of_difficulties; discriminate.
  - split; [exact H1|].
    destruct (H3 (export_song 0 (CStr "Airglow") "/w/generated_files/Airglow"
                    legacy_loaded).2) as (sh & Hf & Hb & _); [by vm_compute|].
    exists sh. split; [exact Hf|exact Hb].
Defined.

(** ** The steps of [main] before the exports *)

Lemma os_rename_inv src dst w r w' :
  os_rename src dst w = (r, w') → cwd w' = cwd w ∧ frames w' = frames w.
Proof.
  unfold os_rename. destruct (files w !! resolve w src); repeat case_decide;
    by intros [= <- <-].
Qed.

(** A rename that succeeded and left something readable as a file at the
    new name was the rename of a file: the directories are as before. *)
Lemma os_rename_file src dst w w' :
  os_rename src dst w = (Ok tt, w') →
  resolve w dst ∉ dirs w' →
  dirs w' = dirs w ∧
  ∃ c, files w !! resolve w src = Some c ∧
       files w' = <[resolve w dst := c]> (delete (resolve w src) (files w)).
Proof.
  unfold os_rename. destruct (files w !! resolve w src) as [c|].
  { case_decide; [done|]. intros [= <-] Hn. split; [done|]. by exists c. }
  repeat case_decide; try done.
  - intros [= <-] Hn. exfalso. apply Hn. by rewrite <- H0.
  - intros [= <-] Hn. exfalso. apply Hn. simpl.
    apply elem_of_map. exists (resolve w src). split; [|done].
    unfold rekey. by rewrite String.eqb_refl.
Qed.

Lemma remove_combined_suffix_inv file_name w r w' :
  remove_combined_suffix file_name w = (r, w') →
  cwd w' = cwd w ∧ frames w' = frames w ∧
  (contains "_combined" file_name = false → w' = w ∧ r = Ok file_name).
Proof.
  unfold remove_combined_suffix. destruct (contains "_combined" file_name).
  - intros H. apply bind_inv in H as [([] & w1 & H1 & [= <- <-])|(e & H1 & ->)];
      apply os_rename_inv in H1 as [? ?]; done.
  - by intros [= <- <-].
Qed.

Lemma read_csv_inv path w df w' :
  read_csv path w = (Ok df, w') →
  (resolve w path ∉ dirs w) ∧
  ∃ sh, files w !! resolve w path = Some (Csv sh) ∧
        header sh ≠ [] ∧ rectangular sh = true ∧
        df = length (frames w) ∧
        w' = with_frames (frames w ++ [of_sheet sh]) w.
Proof.
  unfold read_csv. case_decide; [done|].
  destruct (files w !! resolve w path) as [[sh| |]|]; try done.
  destruct (header sh) eqn:Hh; [done|].
  destruct (rectangular sh) eqn:Hr; [|done].
  rewrite alloc_eq. intros [= <- <-]. split; [done|].
  exists sh. rewrite Hh. by split_and!.
Qed.

(** The normalizer followed by the loader, when both succeed: a frame has
    been added to the store, and on disk only the input file has moved,
    from its old name to its new one. *)
Lemma normalize_load_inv file_name file_path w w1 df w2 :
  remove_combined_suffix file_name w = (Ok file_path, w1) →
  read_csv file_path w1 = (Ok df, w2) →
  cwd w2 = cwd w ∧ dirs w2 = dirs w ∧ files w2 = files w1 ∧
  (∀ p, p ≠ resolve w file_name → p ≠ resolve w file_path →
        files w1 !! p = files w !! p) ∧
  ∃ sh, files w1 !! resolve w file_path = Some (Csv sh) ∧
        header sh ≠ [] ∧ rectangular sh = true ∧
        df = length (frames w) ∧
        frames w2 = frames w ++ [of_sheet sh].
Proof.
  intros H1 H2.
  destruct (remove_combined_suffix_inv _ _ _ _ H1) as (Hc & Hf & Hno).
  apply read_csv_inv in H2 as (Hn & sh & Hsh & Hh & Hr & -> & ->).
  assert (Hres : ∀ p, resolve w1 p = resolve w p)
    by (intros p; unfold resolve; by rewrite Hc).
  rewrite Hres in Hn, Hsh. simpl. rewrite Hf.
  unfold remove_combined_suffix in H1.
  destruct (contains "_combined" file_name).
  - apply bind_inv in H1 as [([] & w1' & H1 & [= <- <-])|(e & _ & ?)]; [|done].
    apply os_rename_file in H1 as (Hd & c & _ & Hfiles); [|done].
    split_and!; try done; [|by exists sh].
    intros p Hp1 Hp2. by rewrite Hfiles, lookup_insert_ne, lookup_delete_ne.
  - injection H1 as <- <-. split_and!; try done. by exists sh.
Qed.

Lemma place_song_eq df T output_dir file_path file_name w :
  frames w !! df = Some T →
  place_song df output_dir file_path file_name w
  = place_song_on T output_dir file_path file_name w.
Proof.
  intros Hdf. unfold place_song, place_song_on.
  pose proof (df_getitem_eq df "song_name" T w Hdf) as H1.
  destruct (getitem "song_name" T) as [ser|].
  2: { by rewrite (bind_raise _ _ _ _ _ H1). }
  rewrite (bind_ok _ _ _ _ _ H1). unfold series_iloc0.
  destruct (iloc0 ser) as [[name|z|]|]; try done.
  unfold create_song_folder, os_fspath, mbind, M_bind, mret, M_ret.
  by destruct (os_makedirs _ w) as [[[]|e] w1].
Qed.

(** The first value of a column is the value of the first row. *)
Lemma getitem_iloc0 c T ser :
  getitem c T = Some ser →
  ∃ pos, get_loc c (columns T) = Some pos ∧
         iloc0 ser = match rows T with
                     | [] => None
                     | r :: _ => Some (cell_at pos r)
                     end.
Proof.
  unfold getitem. destruct (get_loc c (columns T)) as [pos|]; [|done].
  intros [= <-]. exists pos. split; [done|]. by destruct (rows T).
Qed.

(** ** An empty table stops the run before any folder is made *)

(** C5: when the table loaded from an input file has no rows, reading the
    song of the first row raises ([IndexError], or [KeyError] when there
    is no [song_name] column either), and lines 56-62 leave the world
    exactly as they found it; the turn of [main] for that file ends with
    that exception, with the directories it started with: no song folder
    was made, and on disk nothing but the input file, under its old and
    its new name, differs from the start. *)
Theorem empty_table_fails_before_song_folder
  (output_dir file_name file_path : string) (w w1 w2 : World) (df : nat)
  (T : DataFrame) :
  remove_combined_suffix file_name w = (Ok file_path, w1) →
  read_csv file_path w1 = (Ok df, w2) →
  frames w2 !! df = Some T →
  rows T = [] →
  ∃ e, e = match get_loc "song_name" (columns T) with
           | Some _ => IndexError
           | None => KeyError
           end ∧
       place_song df output_dir file_path file_name w2 = (Raise e, w2) ∧
       process_file output_dir file_name w = (Raise e, w2) ∧
       dirs w2 = dirs w ∧ files w2 = files w1 ∧
       (∀ p, p ≠ resolve w file_name → p ≠ resolve w file_path →
             files w2 !! p = files w !! p) ∧
       (contains "_combined" file_name = false → files w2 = files w).
Proof.
  intros H1 H2 Hdf Hrows.
  destruct (normalize_load_inv _ _ _ _ _ _ H1 H2) as (_ & Hd & Hf & Hrest & _).
  destruct (remove_combined_suffix_inv _ _ _ _ H1) as (_ & _ & Hno).
  assert (Hplace : place_song df output_dir file_path file_name w2
                   = (Raise match get_loc "song_name" (columns T) with
                            | Some _ => IndexError
                            | None => KeyError
                            end, w2)).
  { rewrite (place_song_eq _ _ _ _ _ _ Hdf). unfold place_song_on.
    destruct (getitem "song_name" T) as [ser|] eqn:Hg.
    - destruct (getitem_iloc0 _ _ _ Hg) as (pos & -> & ->). by rewrite Hrows.
    - unfold getitem in Hg. by destruct (get_loc "song_name" (columns T)). }
  eexists. split_and!; [done|done| |done|done| |].
  - unfold process_file.
    rewrite (bind_ok _ _ _ _ _ H1), (bind_ok _ _ _ _ _ H2).
    by rewrite (bind_raise _ _ _ _ _ Hplace).
  - intros p Hp1 Hp2. rewrite Hf. by apply Hrest.
  - intros Hc. destruct (Hno Hc) as [-> _]. done.
Qed.

Lemma empty_table_fails_before_song_folder_witness :
  ∃ w2, process_file "/w/generated_files" "empty_combined.csv" empty_input
        = (Raise IndexError, w2) ∧
        dirs w2 = dirs empty_input.
Proof.
  destruct (empty_table_fails_before_song_folder "/w/generated_files"
              "empty_combined.csv" "empty.csv" empty_input
              (remove_combined_suffix "empty_combined.csv" empty_input).2
              (read_csv "empty.csv"
                 (remove_combined_suffix "empty_combined.csv" empty_input).2).2
              0 (of_sheet header_only))
    as (e & He & _ & Hp & Hd & _ & _ & _).
  - reflexivity.
  - reflexivity.
  - reflexivity.
  - reflexivity.
  - eexists. split; [|exact Hd]. rewrite Hp, He. reflexivity.
Defined.

(** ** The whole-song export, as [main] calls it *)

Lemma place_song_ok_inv df T output_dir file_path file_name w song_name song_folder w' :
  frames w !! df = Some T →
  place_song df output_dir file_path file_name w = (Ok (song_name, song_folder), w') →
  ∃ pos r0 rest name,
    get_loc "song_name" (columns T) = Some pos ∧
    rows T = r0 :: rest ∧
    cell_at pos r0 = CStr name ∧
    song_name = CStr name ∧
    song_folder = os_path_join output_dir name ∧
    ∃ w1, os_makedirs song_folder w = (Ok tt, w1) ∧
          shutil_move file_path (os_path_join song_folder file_name) w1
          = (Ok tt, w').
Proof.
  intros Hdf. rewrite (place_song_eq _ _ _ _ _ _ Hdf). unfold place_song_on.
  destruct (getitem "song_name" T) as [ser|] eqn:Hg; [|done].
  destruct (getitem_iloc0 _ _ _ Hg) as (pos & Hpos & ->).
  destruct (rows T) as [|r0 rest]; [done|].
  destruct (cell_at pos r0) as [name| |] eqn:Hcell; try done.
  intros H. apply bind_inv in H as [([] & w1 & H1 & H2)|(e & _ & ?)]; [|done].
  apply bind_inv in H2 as [([] & w2 & H2 & [= <- <- <-])|(e & _ & ?)]; [|done].
  exists pos, r0, rest, name. split_and!; try done. by exists w1.
Qed.



(** ** An exception ends the run *)

Lemma for_each_app_raise {A : Type} (body : A → M unit) pre x post w w1 e w2 :
  for_each pre body w = (Ok tt, w1) →
  body x w1 = (Raise e, w2) →
  for_each (pre ++ x :: post) body w = (Raise e, w2).
Proof.
  revert w. induction pre as [|y pre IH]; intros w Hpre Hx.
  - injection Hpre as <-. cbn [app for_each]. by rewrite (bind_raise _ _ _ _ _ Hx).
  - cbn [app for_each] in *.
    apply bind_inv in Hpre as [([] & w' & Hy & Hrest)|(e' & _ & ?)]; [|done].
    rewrite (bind_ok _ _ _ _ _ Hy). by apply IH.
Qed.

(** C7: nothing in the pipeline handles an exception.  Whichever step of
    the turn for a file raises (the normalizer's rename, the loader, the
    song lookup and the move, the whole-song export, the partitioner),
    the turn ends with that exception and the world of that moment.  When
    the turn of a file raises after the files before it went through, the
    loop ends with that exception and that world whatever files follow,
    and so does [main]: the files after it are not touched and nothing
    written so far is taken back. *)
Theorem exception_ends_run (output_dir : string) :
  (∀ file_name w e w',
     remove_combined_suffix file_name w = (Raise e, w') →
     process_file output_dir file_name w = (Raise e, w')) ∧
  (∀ file_name w file_path w1 e w',
     remove_combined_suffix file_name w = (Ok file_path, w1) →
     read_csv file_path w1 = (Raise e, w') →
     process_file output_dir file_name w = (Raise e, w')) ∧
  (∀ file_name w file_path w1 df w2 e w',
     remove_combined_suffix file_name w = (Ok file_path, w1) →
     read_csv file_path w1 = (Ok df, w2) →
     place_song df output_dir file_path file_name w2 = (Raise e, w') →
     process_file output_dir file_name w = (Raise e, w')) ∧
  (∀ file_name w file_path w1 df w2 song_name song_folder w3 e w',
     remove_combined_suffix file_name w = (Ok file_path, w1) →
     read_csv file_path w1 = (Ok df, w2) →
     place_song df output_dir file_path file_name w2
     = (Ok (song_name, song_folder), w3) →
     export_song df song_name song_folder w3 = (Raise e, w') →
     process_file output_dir file_name w = (Raise e, w')) ∧
  (∀ file_name w file_path w1 df w2 song_name song_folder w3 w4 r w',
     remove_combined_suffix file_name w = (Ok file_path, w1) →
     read_csv file_path w1 = (Ok df, w2) →
     place_song df output_dir file_path file_name w2
     = (Ok (song_name, song_folder), w3) →
     export_song df song_name song_folder w3 = (Ok tt, w4) →
     split_by_difficulty df song_name song_folder w4 = (r, w') →
     process_file output_dir file_name w = (r, w')) ∧
  (∀ pre file_name post w w1 e w2,
     for_each pre (process_file output_dir) w = (Ok tt, w1) →
     process_file output_dir file_name w1 = (Raise e, w2) →
     for_each (pre ++ file_name :: post) (process_file output_dir) w
     = (Raise e, w2)) ∧
  (∀ w0 wa names pre file_name post w1 e w2,
     output_dir = os_path_join (cwd w0) "generated_files" →
     os_makedirs output_dir w0 = (Ok tt, wa) →
     os_listdir (cwd w0) wa = (Ok names, wa) →
     List.filter (endswith ".csv") names = pre ++ file_name :: post →
     for_each pre (process_file output_dir) wa = (Ok tt, w1) →
     process_file output_dir file_name w1 = (Raise e, w2) →
     main w0 = (Raise e, w2)).
Proof.
  split_and!.
  - intros file_name w e w' H1. unfold process_file.
    by rewrite (bind_raise _ _ _ _ _ H1).
  - intros file_name w file_path w1 e w' H1 H2. unfold process_file.
    by rewrite (bind_ok _ _ _ _ _ H1), (bind_raise _ _ _ _ _ H2).
  - intros file_name w file_path w1 df w2 e w' H1 H2 H3. unfold process_file.
    rewrite (bind_ok _ _ _ _ _ H1), (bind_ok _ _ _ _ _ H2).
    by rewrite (bind_raise _ _ _ _ _ H3).
  - intros file_name w file_path w1 df w2 song_name song_folder w3 e w'
      H1 H2 H3 H4. unfold process_file.
    rewrite (bind_ok _ _ _ _ _ H1), (bind_ok _ _ _ _ _ H2).
    rewrite (bind_ok _ _ _ _ _ H3). by rewrite (bind_raise _ _ _ _ _ H4).
  - intros file_name w file_path w1 df w2 song_name song_folder w3 w4 r w'
      H1 H2 H3 H4 H5. unfold process_file.
    rewrite (bind_ok _ _ _ _ _ H1), (bind_ok _ _ _ _ _ H2).
    rewrite (bind_ok _ _ _ _ _ H3). by rewrite (bind_ok _ _ _ _ _ H4).
  - intros pre file_name post w w1 e w2. apply for_each_app_raise.
  - intros w0 wa names pre file_name post w1 e w2 -> Hmk Hls Hcsv Hpre Hf.
    unfold main.
    rewrite (bind_ok _ _ w0 (cwd w0) w0) by done.
    rewrite (bind_ok _ _ _ _ _ Hmk), (bind_ok _ _ _ _ _ Hls), Hcsv.
    by rewrite (bind_raise _ _ _ _ _
                  (for_each_app_raise _ _ _ post _ _ _ _ Hpre Hf)).
Qed.

Lemma exception_ends_run_witness :
  ∃ w2, main three_inputs = (Raise IndexError, w2) ∧
        files w2 !! "/w/b.csv" = Some (Csv legacy_sheet) ∧
        files w2 !! "/w/generated_files/Airglow/c.csv" = Some (Csv airglow) ∧
        is_Some (files w2 !! "/w/generated_files/Airglow/Airglow.xlsx").
Proof.
  destruct (exception_ends_run "/w/generated_files")
    as (_ & _ & _ & _ & _ & _ & H).
  exists (process_file "/w/generated_files" "a.csv"
            (process_file "/w/generated_files" "c.csv" three_inputs).2).2.
  split; [|split_and!; [by vm_compute|by vm_compute|
                       eexists; vm_compute; reflexivity]].
  apply (H three_inputs three_inputs ["generated_files"; "c.csv"; "a.csv"; "b.csv"]
           ["c.csv"] "a.csv" ["b.csv"]
           (process_file "/w/generated_files" "c.csv" three_inputs).2).
  - reflexivity.
  - reflexivity.
  - by vm_compute.
  - reflexivity.
  - by vm_compute.
  - by vm_compute.
Defined.

(** ** Where the input file ends up *)

(** C6 fails on the code: the normalizer renames [a_combined.csv] to
    [a.csv], and line 62 then moves [a.csv] into the song folder under
    [file_name], the name it had before, so the folder holds
    [a_combined.csv] and no [a.csv]. *)
Theorem main_files_input_under_marked_name :
  (remove_combined_suffix "a_combined.csv" marked_input).1 = Ok "a.csv" ∧
  (main marked_input).1 = Ok tt ∧
  files (main marked_input).2 !! "/w/generated_files/Airglow/a_combined.csv"
  = Some (Csv airglow) ∧
  files (main marked_input).2 !! "/w/generated_files/Airglow/a.csv" = None ∧
  files (main marked_input).2 !! "/w/a.csv" = None.
Proof. by vm_compute. Qed.

(** * The rest of the script *)

(** ** [create_song_folder] *)

Lemma os_makedirs_inv path w r w' :
  os_makedirs path w = (r, w') →
  cwd w' = cwd w ∧ frames w' = frames w ∧ files w' = files w ∧
  ((r = Ok tt ∧ dirs w' = {[resolve w path]} ∪ dirs w ∧
    (resolve w path ∈ dirs w ∨ files w !! resolve w path = None)) ∨
   (r = Raise FileExistsError ∧ w' = w ∧
    (resolve w path ∉ dirs w) ∧ is_Some (files w !! resolve w path))).
Proof.
  unfold os_makedirs. case_decide as Hd; [|case_decide as Hf];
    intros [= <- <-]; split_and!; try done.
  - left. split_and!; [done| |by left]. apply leibniz_equiv.
    intros p. rewrite elem_of_union, elem_of_singleton.
    split; [by right|]. by intros [->|?].
  - right. by split_and!.
  - left. split_and!; [done|done|]. right.
    by apply eq_None_not_Some.
Qed.

Lemma create_song_folder_str name output_dir w :
  create_song_folder (CStr name) output_dir w
  = (os_makedirs (os_path_join output_dir name) ≫=
       λ _, mret (os_path_join output_dir name)) w.
Proof. reflexivity. Qed.

(** X1: the folder of a song is the song's name joined to the output
    directory.  Whatever the outcome, [create_song_folder] touches no
    file and removes no directory.  When it returns, it returns that
    path, and the path is a directory.  When a file has that name and no
    directory, it raises [FileExistsError] and changes nothing. *)
Theorem create_song_folder_makes_folder (name output_dir : string) (w : World) :
  let song_folder := os_path_join output_dir name in
  (∀ r w', create_song_folder (CStr name) output_dir w = (r, w') →
     files w' = files w ∧ dirs w ⊆ dirs w' ∧
     frames w' = frames w ∧ cwd w' = cwd w) ∧
  (∀ x w', create_song_folder (CStr name) output_dir w = (Ok x, w') →
     x = song_folder ∧ resolve w song_folder ∈ dirs w') ∧
  (resolve w song_folder ∉ dirs w → is_Some (files w !! resolve w song_folder) →
   create_song_folder (CStr name) output_dir w = (Raise FileExistsError, w)).
Proof.
  intros song_folder. rewrite create_song_folder_str. fold song_folder.
  destruct (os_makedirs song_folder w) as [r0 w1] eqn:H.
  destruct (os_makedirs_inv _ _ _ _ H) as (Hc & Hfr & Hf & Hcase).
  split_and!.
  - intros r w' Hrun.
    assert (w' = w1) as ->.
    { destruct r0; [rewrite (bind_ok _ _ _ _ _ H) in Hrun
                   |rewrite (bind_raise _ _ _ _ _ H) in Hrun];
        by injection Hrun. }
    split_and!; try done.
    destruct Hcase as [(_ & -> & _)|(_ & -> & _)]; [|done].
    apply union_subseteq_r.
  - intros x w' Hrun.
    destruct Hcase as [(-> & Hd & _)|(-> & _)].
    + rewrite (bind_ok _ _ _ _ _ H) in Hrun. injection Hrun as <- <-.
      split; [done|]. rewrite Hd. apply elem_of_union_l.
      by apply elem_of_singleton.
    + by rewrite (bind_raise _ _ _ _ _ H) in Hrun.
  - intros Hn Hs.
    destruct Hcase as [(_ & _ & [?|Hnone])|(-> & -> & _)].
    + done.
    + rewrite Hnone in Hs. by destruct Hs.
    + by rewrite (bind_raise _ _ _ _ _ H).
Qed.

Lemma create_song_folder_makes_folder_witness :
  (create_song_folder (CStr "song") "/w" clashing_inputs).1
  = Ok "/w/song" ∧
  "/w/song" ∈ dirs (create_song_folder (CStr "song") "/w" clashing_inputs).2 ∧
  create_song_folder (CStr "song.csv") "/w" clashing_inputs
  = (Raise FileExistsError, clashing_inputs).
Proof.
  destruct (create_song_folder_makes_folder "song" "/w" clashing_inputs)
    as (_ & Hok & _).
  destruct (create_song_folder_makes_folder "song.csv" "/w" clashing_inputs)
    as (_ & _ & Hraise).
  split_and!.
  - by vm_compute.
  - apply (Hok "/w/song"). by vm_compute.
  - apply Hraise.
    + vm_compute. intros E. discriminate E.
    + eexists. by vm_compute.
Defined.

(** X2: calling [create_song_folder] again with the same arguments gives the
    same answer and leaves the world of the first call as it is, whatever
    the song name and whether the first call returned or raised. *)
Theorem create_song_folder_again (song_name : Cell) (output_dir : string)
  (w w' : World) (r : Result string) :
  create_song_folder song_name output_dir w = (r, w') →
  create_song_folder song_name output_dir w' = (r, w').
Proof.
  destruct song_name as [name| |]; try (by intros [= <- <-]).
  rewrite !create_song_folder_str.
  intros H. apply bind_inv in H as [([] & w1 & H1 & [= <- <-])|(e & H1 & ->)].
  - destruct (os_makedirs_inv _ _ _ _ H1) as (Hc & _ & _ & [(_ & Hd & _)|(? & _)]);
      [|done].
    assert (Hin : resolve w1 (os_path_join output_dir name) ∈ dirs w1).
    { unfold resolve. rewrite Hc, Hd. apply elem_of_union_l.
      by apply elem_of_singleton. }
    unfold mbind, M_bind, os_makedirs. by rewrite decide_True.
  - destruct (os_makedirs_inv _ _ _ _ H1) as (_ & _ & _ & [(? & _)|(_ & -> & _)]);
      [done|].
    by rewrite (bind_raise _ _ _ _ _ H1).
Qed.

Lemma create_song_folder_again_witness :
  create_song_folder (CStr "Airglow") "/w/generated_files"
    (create_song_folder (CStr "Airglow") "/w/generated_files" empty_input).2
  = ((create_song_folder (CStr "Airglow") "/w/generated_files" empty_input).1,
     (create_song_folder (CStr "Airglow") "/w/generated_files" empty_input).2).
Proof.
  apply (create_song_folder_again (CStr "Airglow") "/w/generated_files"
           empty_input). by destruct (create_song_folder _ _ _).
Defined.

(** ** Tables the script cannot file *)

Lemma shutil_move_inv src dst w r w' :
  shutil_move src dst w = (r, w') → cwd w' = cwd w ∧ frames w' = frames w.
Proof.
  unfold shutil_move. repeat case_decide; try (by intros [= <- <-]);
    apply os_rename_inv.
Qed.

Lemma place_song_inv df T output_dir file_path file_name w r w' :
  frames w !! df = Some T →
  place_song df output_dir file_path file_name w = (r, w') →
  cwd w' = cwd w ∧ frames w' = frames w.
Proof.
  intros Hdf. rewrite (place_song_eq _ _ _ _ _ _ Hdf). unfold place_song_on.
  destruct (getitem "song_name" T) as [ser|]; [|by intros [= <- <-]].
  destruct (iloc0 ser) as [[name| |]|]; try (by intros [= <- <-]).
  intros H. apply bind_inv in H as [([] & w1 & H1 & H2)|(e & H1 & ->)];
    apply os_makedirs_inv in H1 as (Hc1 & Hf1 & _); [|done].
  apply bind_inv in H2 as [([] & w2 & H2 & [= <- <-])|(e & H2 & ->)];
    apply shutil_move_inv in H2 as (Hc2 & Hf2); split; congruence.
Qed.

(** X3: when the loaded table has rows but no usable song name -- no
    [song_name] column, or a first value there that is a number or
    missing -- lines 56-62 raise ([KeyError], resp. [TypeError]) and leave
    the world exactly as they found it, and the turn of [main] ends with
    that exception: no directory has been made and the input file is
    still in the working directory, under its normalized name. *)
Theorem unusable_song_name_stops_turn
  (output_dir file_name file_path : string) (w w1 w2 : World) (df : nat)
  (T : DataFrame) :
  remove_combined_suffix file_name w = (Ok file_path, w1) →
  read_csv file_path w1 = (Ok df, w2) →
  frames w2 !! df = Some T →
  rows T ≠ [] →
  (∀ pos r0 rest name,
     get_loc "song_name" (columns T) = Some pos → rows T = r0 :: rest →
     cell_at pos r0 ≠ CStr name) →
  ∃ e, e = match get_loc "song_name" (columns T) with
           | Some _ => TypeError
           | None => KeyError
           end ∧
       place_song df output_dir file_path file_name w2 = (Raise e, w2) ∧
       process_file output_dir file_name w = (Raise e, w2) ∧
       dirs w2 = dirs w ∧
       ∃ sh, files w2 !! resolve w file_path = Some (Csv sh) ∧ T = of_sheet sh.
Proof.
  intros H1 H2 Hdf Hrows Hbad.
  destruct (normalize_load_inv _ _ _ _ _ _ H1 H2)
    as (_ & Hd & Hf & _ & sh & Hsh & _ & _ & Hdfeq & Hfr).
  assert (HT : T = of_sheet sh).
  { rewrite Hfr, Hdfeq, lookup_app_r, Nat.sub_diag in Hdf by done.
    by injection Hdf. }
  assert (Hplace : place_song df output_dir file_path file_name w2
                   = (Raise match get_loc "song_name" (columns T) with
                            | Some _ => TypeError
                            | None => KeyError
                            end, w2)).
  { rewrite (place_song_eq _ _ _ _ _ _ Hdf). unfold place_song_on.
    destruct (getitem "song_name" T) as [ser|] eqn:Hg.
    - destruct (getitem_iloc0 _ _ _ Hg) as (pos & Hpos & ->). rewrite Hpos.
      destruct (rows T) as [|r0 rest] eqn:Hr; [done|].
      destruct (cell_at pos r0) as [name| |] eqn:Hcell; try done.
      by destruct (Hbad pos r0 rest name Hpos eq_refl).
    - unfold getitem in Hg. by destruct (get_loc "song_name" (columns T)). }
  eexists. split_and!; [done|done| |done|].
  - unfold process_file.
    rewrite (bind_ok _ _ _ _ _ H1), (bind_ok _ _ _ _ _ H2).
    by rewrite (bind_raise _ _ _ _ _ Hplace).
  - exists sh. by rewrite Hf.
Qed.

Lemma unusable_song_name_stops_turn_witness :
  ∃ w2, process_file "/w/generated_files" "n_combined.csv" numbered_input
        = (Raise TypeError, w2) ∧
        dirs w2 = dirs numbered_input ∧
        files w2 !! "/w/n.csv" = Some (Csv numbered_song).
Proof.
  destruct (unusable_song_name_stops_turn "/w/generated_files"
              "n_combined.csv" "n.csv" numbered_input
              (remove_combined_suffix "n_combined.csv" numbered_input).2
              (read_csv "n.csv"
                 (remove_combined_suffix "n_combined.csv" numbered_input).2).2
              0 (of_sheet numbered_song))
    as (e & He & _ & Hp & Hd & sh & Hsh & HT).
  - reflexivity.
  - reflexivity.
  - reflexivity.
  - discriminate.
  - intros pos r0 rest name [= <-] [= <- <-]. discriminate.
  - eexists. split_and!; [by rewrite Hp, He|exact Hd|reflexivity].
Defined.

(** ** Moving the input file *)

Lemma os_rename_of_file src dst w c :
  files w !! resolve w src = Some c →
  os_rename src dst w
  = if decide (resolve w dst ∈ dirs w) then (Raise IsADirectoryError, w)
    else (Ok tt, with_files (<[resolve w dst := c]>
                               (delete (resolve w src) (files w))) w).
Proof. intros H. unfold os_rename. by rewrite H. Qed.

(** [shutil.move] of a file: the directories stay, and when it returns
    the file has left its path for one that is not a directory: [dst]
    itself unless [dst] is a directory. *)
Lemma shutil_move_of_file src dst w c r w' :
  files w !! resolve w src = Some c →
  shutil_move src dst w = (r, w') →
  dirs w' = dirs w ∧
  ((∃ e, r = Raise e ∧ w' = w) ∨
   (r = Ok tt ∧
    ∃ d, (d ∉ dirs w) ∧
         files w' = <[d := c]> (delete (resolve w src) (files w)) ∧
         (resolve w dst ∉ dirs w → d = resolve w dst))).
Proof.
  intros Hc. unfold shutil_move.
  assert (Hren : ∀ x r w',
    os_rename src x w = (r, w') →
    dirs w' = dirs w ∧
    ((∃ e, r = Raise e ∧ w' = w) ∨
     (r = Ok tt ∧ (resolve w x ∉ dirs w) ∧
      files w' = <[resolve w x := c]> (delete (resolve w src) (files w))))).
  { intros x r0 w0. rewrite (os_rename_of_file _ _ _ _ Hc).
    case_decide; intros [= <- <-]; (split; [done|]); [left; by eexists|].
    right. by split_and!. }
  case_decide as Hd; [case_decide as Hs|].
  - intros H. apply Hren in H as [? [?|(_ & ? & _)]]; [by split; [|left]|done].
  - case_decide as Hex.
    + intros [= <- <-]. split; [done|]. left. by eexists.
    + intros H. apply Hren in H as [? [?|(-> & Hn & Hf)]]; [by split; [|left]|].
      split; [done|]. right. split; [done|]. eexists. by split_and!.
  - intros H. apply Hren in H as [? [?|(-> & Hn & Hf)]]; [by split; [|left]|].
    split; [done|]. right. split; [done|]. eexists. by split_and!.
Qed.

(** Lines 56-62 when they return, on an input that is a file. *)
Lemma place_song_ok_world df T output_dir file_path file_name w c
  song_name song_folder w' :
  frames w !! df = Some T →
  files w !! resolve w file_path = Some c →
  place_song df output_dir file_path file_name w
  = (Ok (song_name, song_folder), w') →
  cwd w' = cwd w ∧ frames w' = frames w ∧
  dirs w' = {[resolve w song_folder]} ∪ dirs w ∧
  ∃ d, (d ∉ dirs w') ∧
       files w' = <[d := c]> (delete (resolve w file_path) (files w)) ∧
       (resolve w (os_path_join song_folder file_name) ∉ dirs w' →
        d = resolve w (os_path_join song_folder file_name)).
Proof.
  intros Hdf Hc Hp.
  destruct (place_song_inv _ _ _ _ _ _ _ _ Hdf Hp) as [Hcwd Hfr].
  destruct (place_song_ok_inv _ _ _ _ _ _ _ _ _ Hdf Hp)
    as (pos & r0 & rest & name & _ & _ & _ & _ & _ & w1 & Hmk & Hmv).
  destruct (os_makedirs_inv _ _ _ _ Hmk)
    as (Hc1 & _ & Hf1 & [(_ & Hd1 & _)|(? & _)]); [|done].
  assert (Hres : ∀ p, resolve w1 p = resolve w p)
    by (intros p; unfold resolve; by rewrite Hc1).
  rewrite <- Hf1, <- (Hres file_path) in Hc.
  destruct (shutil_move_of_file _ _ _ _ _ _ Hc Hmv)
    as [Hd2 [(e & ? & _)|(_ & d & Hn & Hf & Hdst)]]; [done|].
  rewrite !Hres, Hf1 in *. rewrite Hd2, Hd1.
  split_and!; try done. exists d. rewrite <- Hd1. by split_and!.
Qed.



(** ** A table without a [difficulty] column *)

Lemma split_by_difficulty_no_column df T song_name song_folder w :
  frames w !! df = Some T →
  get_loc "difficulty" (columns T) = None →
  split_by_difficulty df song_name song_folder w = (Raise KeyError, w).
Proof.
  intros Hdf Hnone. unfold split_by_difficulty, difficulties. cbn [for_each].
  apply bind_raise. rewrite (split_tier_eq _ _ _ _ _ _ Hdf).
  unfold split_tier_on, partition, getitem. by rewrite Hnone.
Qed.

(** X5: A table with a usable song name and no [difficulty] column gets
    through lines 56-67: when the move and the whole-song export have
    succeeded, [split_by_difficulty] raises [KeyError] at its first turn
    without touching the world, and the turn of [main] ends with that
    exception after the song folder has been made, the input file moved
    and the whole-song spreadsheet written. *)
Theorem missing_difficulty_column_stops_after_export
  (output_dir file_name file_path : string) (w w1 w2 w3 w4 : World) (df : nat)
  (T : DataFrame) (song_name : Cell) (song_folder : string) :
  remove_combined_suffix file_name w = (Ok file_path, w1) →
  read_csv file_path w1 = (Ok df, w2) →
  frames w2 !! df = Some T →
  get_loc "difficulty" (columns T) = None →
  place_song df output_dir file_path file_name w2
  = (Ok (song_name, song_folder), w3) →
  export_song df song_name song_folder w3 = (Ok tt, w4) →
  split_by_difficulty df song_name song_folder w4 = (Raise KeyError, w4) ∧
  process_file output_dir file_name w = (Raise KeyError, w4) ∧
  resolve w song_folder ∈ dirs w4 ∧
  files w4 !! resolve w (song_excel_file song_name song_folder)
  = Some (Xlsx (to_sheet (drop_column "song_name" T))).
Proof.
  intros H1 H2 Hdf Hnone H3 H4.
  destruct (normalize_load_inv _ _ _ _ _ _ H1 H2)
    as (Hc2 & _ & Hf2 & _ & sh & Hsh & _ & _ & _ & _).
  assert (Hres2 : ∀ p, resolve w2 p = resolve w p)
    by (intros p; unfold resolve; by rewrite Hc2).
  rewrite <- Hf2, <- (Hres2 file_path) in Hsh.
  destruct (place_song_ok_world _ _ _ _ _ _ _ _ _ _ Hdf Hsh H3)
    as (Hc3 & Hfr3 & Hd3 & d & Hnd & Hf3 & _).
  assert (Hdf3 : frames w3 !! df = Some T) by by rewrite Hfr3.
  assert (Hres3 : ∀ p, resolve w3 p = resolve w p)
    by (intros p; unfold resolve; by rewrite Hc3, Hc2).
  destruct (export_song_inv _ _ _ _ _ _ _ Hdf3 H4)
    as (Hc4 & Hd4 & Hfr4 & [(_ & Hn4 & Hf4)|(? & _)]); [|done].
  assert (Hdf4 : frames w4 !! df = Some T)
    by (rewrite Hfr4; by apply lookup_app_l_Some).
  pose proof (split_by_difficulty_no_column _ _ song_name song_folder _
                Hdf4 Hnone) as H5.
  rewrite Hres3 in Hf4, Hn4. rewrite Hres2 in Hd3, Hf3.
  split_and!.
  - done.
  - unfold process_file.
    rewrite (bind_ok _ _ _ _ _ H1), (bind_ok _ _ _ _ _ H2).
    rewrite (bind_ok _ _ _ _ _ H3). by rewrite (bind_ok _ _ _ _ _ H4).
  - rewrite Hd4, Hd3. apply elem_of_union_l. by apply elem_of_singleton.
  - by rewrite Hf4, lookup_insert_eq.
Qed.

Lemma missing_difficulty_column_stops_after_export_witness :
  ∃ w4, process_file "/w/generated_files" "u.csv" untiered_input
        = (Raise KeyError, w4) ∧
        files w4 !! "/w/generated_files/Airglow/Airglow.xlsx"
        = Some (Xlsx {| header := ["score"]; body := [[CNum 100]; [CNum 90]] |}).
Proof.
  pose (w2 := (read_csv "u.csv" untiered_input).2).
  pose (w3 := (place_song 0 "/w/generated_files" "u.csv" "u.csv" w2).2).
  pose (w4 := (export_song 0 (CStr "Airglow") "/w/generated_files/Airglow" w3).2).
  destruct (missing_difficulty_column_stops_after_export "/w/generated_files"
              "u.csv" "u.csv" untiered_input untiered_input w2 w3 w4 0
              (of_sheet untiered) (CStr "Airglow") "/w/generated_files/Airglow")
    as (_ & Hp & _ & Hx).
  - reflexivity.
  - reflexivity.
  - reflexivity.
  - reflexivity.
  - reflexivity.
  - reflexivity.
  - exists w4. split; [exact Hp|exact Hx].
Defined.

(** ** What the normalizer does on disk *)

Lemma startswith_cons b p a s :
  startswith (String b p) (String a s)
  = if Ascii.eqb b a then startswith p s else false.
Proof. reflexivity. Qed.

Lemma replace_keeps_root old new s :
  startswith "/" old = false → old ≠ "" → startswith "/" s = true →
  startswith "/" (replace old new s) = true.
Proof.
  intros Hold Hne Hs. destruct s as [|a s]; [done|].
  destruct old as [|b old]; [done|]. rewrite replace_cons.
  rewrite startswith_cons in Hold, Hs.
  destruct (Ascii.eqb_spec "/" a) as [<-|]; [|done].
  destruct (Ascii.eqb_spec "/" b) as [<-|Hb]; [done|].
  rewrite (startswith_cons b).
  destruct (Ascii.eqb_spec b "/") as [->|]; [done|].
  rewrite startswith_cons. by rewrite Ascii.eqb_refl.
Qed.

Lemma resolve_absolute w p : startswith "/" p = true → resolve w p = p.
Proof. intros H. unfold resolve, os_path_join. by rewrite H. Qed.

Lemma resolve_relative_length w p :
  startswith "/" p = false → String.length p ≤ String.length (resolve w p).
Proof.
  intros H. unfold resolve, os_path_join. rewrite H.
  destruct (_ || _); rewrite !str_length_app; lia.
Qed.

(** A marked name and its normalized form are different paths. *)
Lemma normalized_path_ne w name :
  contains "_combined" name = true →
  resolve w (replace "_combined" "" name) ≠ resolve w name.
Proof.
  intros Hc E.
  pose proof (contains_count _ _ Hc ltac:(done)) as Hn.
  pose proof (length_replace "_combined" name) as Hlen. simpl in Hlen.
  destruct (startswith "/" name) eqn:Hname.
  - pose proof (replace_keeps_root "_combined" "" name eq_refl ltac:(done) Hname).
    rewrite !resolve_absolute in E by done. rewrite E in Hlen. lia.
  - destruct (startswith "/" (replace "_combined" "" name)) eqn:Hnew.
    + pose proof (resolve_relative_length w name Hname) as Hle.
      rewrite <- E, resolve_absolute in Hle by done. lia.
    + apply join_inj in E; [|congruence]. rewrite E in Hlen. lia.
Qed.

(** X6: on a name with the marker, [remove_combined_suffix] renames
    without looking at what is there.  When the name is a file and the
    call returns, it returns the normalized name, under which the file's
    content is now found, in place of whatever file had that name
    before; when that is another file than the old name, nothing is left
    at the old name; every file that is neither of the two is as it was,
    and so are the directories.  When the name is a file and the
    normalized name a directory, the call raises and leaves the world as
    it was; for a name of the listing (no separator in it) whose
    normalized name is a name too, the exception is [IsADirectoryError].
    When the old name, however spelled, is neither a file nor a
    directory, the call raises and leaves the world as it was. *)
Theorem remove_combined_suffix_on_disk (name : string) (w : World) :
  contains "_combined" name = true →
  let new_name := replace "_combined" "" name in
  (∀ c x w', files w !! resolve w name = Some c →
     remove_combined_suffix name w = (Ok x, w') →
     x = new_name ∧
     files w' !! resolve w new_name = Some c ∧
     (place (resolve w name) ≠ place (resolve w new_name) →
      files w' !! resolve w name = None) ∧
     (∀ p, place p ≠ place (resolve w new_name) →
           place p ≠ place (resolve w name) →
           files w' !! p = files w !! p) ∧
     dirs w' = dirs w ∧ frames w' = frames w ∧ cwd w' = cwd w) ∧
  (∀ c, files w !! resolve w name = Some c → resolve w new_name ∈ dirs w →
     ∃ e, remove_combined_suffix name w = (Raise e, w) ∧
          (contains "/" name = false →
           new_name ≠ "" → new_name ≠ "." → new_name ≠ ".." →
           e = IsADirectoryError)) ∧
  ((∀ p, place p = place (resolve w name) →
         files w !! p = None ∧ p ∉ dirs w) →
   ∃ e, remove_combined_suffix name w = (Raise e, w)).
Proof.
  intros Hc new_name.
  unfold remove_combined_suffix. rewrite Hc. fold new_name. split_and!.
  - intros c x w' Hfile Hrun.
    pose proof (os_rename_of_file name new_name w c Hfile) as Hren.
    case_decide as Hd.
    { by rewrite (bind_raise _ _ _ _ _ Hren) in Hrun. }
    rewrite (bind_ok _ _ _ _ _ Hren) in Hrun. injection Hrun as <- <-.
    simpl. split_and!; try done.
    + by rewrite lookup_insert_eq.
    + intros Hne.
      rewrite lookup_insert_ne by (intros E; by rewrite E in Hne).
      by rewrite lookup_delete_eq.
    + intros p Hp1 Hp2.
      rewrite lookup_insert_ne by (by intros <-).
      rewrite lookup_delete_ne by (by intros <-). done.
  - intros c Hfile Hd.
    pose proof (os_rename_of_file name new_name w c Hfile) as Hren.
    rewrite decide_True in Hren by done.
    exists IsADirectoryError. split; [|done].
    by rewrite (bind_raise _ _ _ _ _ Hren).
  - intros Hnone.
    destruct (Hnone (resolve w name) eq_refl) as [Hf Hnd].
    assert (Hren : os_rename name new_name w = (Raise FileNotFoundError, w)).
    { unfold os_rename. by rewrite Hf, decide_False. }
    exists FileNotFoundError. by rewrite (bind_raise _ _ _ _ _ Hren).
Qed.

Lemma remove_combined_suffix_on_disk_witness :
  (remove_combined_suffix "song_combined.csv" clashing_inputs).1 = Ok "song.csv" ∧
  files (remove_combined_suffix "song_combined.csv" clashing_inputs).2
    !! "/w/song.csv" = Some (Csv airglow) ∧
  files (remove_combined_suffix "song_combined.csv" clashing_inputs).2
    !! "/w/song_combined.csv" = None.
Proof.
  destruct (remove_combined_suffix_on_disk "song_combined.csv" clashing_inputs)
    as (H & _); [reflexivity|].
  destruct (H (Csv airglow) "song.csv"
              (remove_combined_suffix "song_combined.csv" clashing_inputs).2)
    as (_ & H2 & H3 & _).
  - reflexivity.
  - by vm_compute.
  - split_and!; [by vm_compute|exact H2|].
    apply H3. vm_compute. discriminate.
Defined.

(** ** A turn of [main] that succeeds *)

(** The five steps of a turn that returns. *)
Lemma process_file_ok_inv output_dir file_name w w' :
  process_file output_dir file_name w = (Ok tt, w') →
  ∃ file_path w1 df w2 song_name song_folder w3 w4,
    remove_combined_suffix file_name w = (Ok file_path, w1) ∧
    read_csv file_path w1 = (Ok df, w2) ∧
    place_song df output_dir file_path file_name w2
    = (Ok (song_name, song_folder), w3) ∧
    export_song df song_name song_folder w3 = (Ok tt, w4) ∧
    split_by_difficulty df song_name song_folder w4 = (Ok tt, w').
Proof.
  unfold process_file. intros H.
  apply bind_inv in H as [(fp & w1 & H1 & H)|(e & _ & ?)]; [|done].
  apply bind_inv in H as [(df & w2 & H2 & H)|(e & _ & ?)]; [|done].
  apply bind_inv in H as [([song folder] & w3 & H3 & H)|(e & _ & ?)]; [|done].
  apply bind_inv in H as [([] & w4 & H4 & H5)|(e & _ & ?)]; [|done].
  by exists fp, w1, df, w2, song, folder, w3, w4.
Qed.

Lemma normalize_keeps_dirs_free file_name file_path w w1 df w2 :
  remove_combined_suffix file_name w = (Ok file_path, w1) →
  read_csv file_path w1 = (Ok df, w2) →
  no_file_is_dir w → no_file_is_dir w2.
Proof.
  intros H1 H2 Hfree p Hp.
  destruct (normalize_load_inv _ _ _ _ _ _ H1 H2) as (Hc & Hd & Hf & _).
  rewrite Hd in Hp. rewrite Hf. specialize (Hfree p Hp).
  apply read_csv_inv in H2 as (Hn & _).
  destruct (remove_combined_suffix_inv _ _ _ _ H1) as (Hc1 & _ & _).
  assert (Hres : resolve w1 file_path = resolve w file_path)
    by (unfold resolve; by rewrite Hc1).
  rewrite Hres in Hn.
  unfold remove_combined_suffix in H1.
  destruct (contains "_combined" file_name); [|by injection H1 as _ <-].
  apply bind_inv in H1 as [([] & w1' & H1 & [= <- <-])|(e & _ & ?)]; [|done].
  apply os_rename_file in H1 as (Hd1 & c & _ & ->); [|done].
  rewrite Hd1 in Hn.
  rewrite lookup_insert_ne by (intros E; apply Hn; by rewrite E).
  rewrite lookup_delete. by case_decide.
Qed.

Lemma split_loop_keeps_dirs_free df T song_name song_folder ts w w' :
  frames w !! df = Some T →
  for_each ts (split_tier df song_name song_folder) w = (Ok tt, w') →
  no_file_is_dir w → no_file_is_dir w'.
Proof.
  revert w. induction ts as [|t ts IH]; intros w Hdf H Hfree.
  { by injection H as <-. }
  cbn [for_each] in H.
  apply bind_inv in H as [([] & w1 & H1 & H2)|(e & _ & ?)]; [|done].
  destruct (split_tier_inv _ _ _ _ _ _ _ _ Hdf H1) as (_ & Hd1 & [ext Hf1] & Ht).
  apply (IH w1); [rewrite Hf1; by apply lookup_app_l_Some|done|].
  intros p Hp. rewrite Hd1 in Hp. specialize (Hfree p Hp).
  destruct (partition t T) as [P|]; [|by destruct Ht].
  destruct (empty P); [by destruct Ht as [_ ->]|].
  destruct Ht as [(_ & Hn1 & Hn2 & ->)|[(? & _)|(? & _)]]; [|done..].
  rewrite !lookup_insert_ne by (intros E; by rewrite E in *). done.
Qed.

(** A turn that returns keeps the working directory, removes no
    directory, and puts no file where a directory is. *)
Lemma process_file_ok_world output_dir file_name w w' :
  process_file output_dir file_name w = (Ok tt, w') →
  cwd w' = cwd w ∧ dirs w ⊆ dirs w' ∧
  (no_file_is_dir w → no_file_is_dir w').
Proof.
  intros H.
  destruct (process_file_ok_inv _ _ _ _ H)
    as (fp & w1 & df & w2 & song & folder & w3 & w4 & H1 & H2 & H3 & H4 & H5).
  destruct (normalize_load_inv _ _ _ _ _ _ H1 H2)
    as (Hc2 & Hd2 & Hf2 & _ & sh & Hsh & _ & _ & Hdf & Hfr2).
  assert (Hdf2 : frames w2 !! df = Some (of_sheet sh))
    by (rewrite Hfr2, Hdf; apply frames_alloc_new).
  assert (Hsrc : files w2 !! resolve w2 fp = Some (Csv sh))
    by (unfold resolve; by rewrite Hf2, Hc2).
  destruct (place_song_ok_world _ _ _ _ _ _ _ _ _ _ Hdf2 Hsrc H3)
    as (Hc3 & Hfr3 & Hd3 & d & Hnd & Hf3 & _).
  destruct (place_song_ok_inv _ _ _ _ _ _ _ _ _ Hdf2 H3)
    as (_ & _ & _ & _ & _ & _ & _ & _ & _ & w2' & Hmk & _).
  destruct (os_makedirs_inv _ _ _ _ Hmk) as (_ & _ & _ & [(_ & _ & Hfolder)|(? & _)]);
    [|done].
  assert (Hdf3 : frames w3 !! df = Some (of_sheet sh)) by by rewrite Hfr3.
  destruct (export_song_inv _ _ _ _ _ _ _ Hdf3 H4)
    as (Hc4 & Hd4 & Hfr4 & [(_ & Hn4 & Hf4)|(? & _)]); [|done].
  assert (Hdf4 : frames w4 !! df = Some (of_sheet sh))
    by (rewrite Hfr4; by apply lookup_app_l_Some).
  destruct (split_loop_inv _ _ _ _ _ _ _ _ Hdf4 H5) as (Hc5 & Hd5 & _ & _).
  split_and!.
  - congruence.
  - rewrite Hd5, Hd4, Hd3, Hd2. apply union_subseteq_r.
  - intros Hfree.
    apply (split_loop_keeps_dirs_free _ _ _ _ _ _ _ Hdf4 H5).
    pose proof (normalize_keeps_dirs_free _ _ _ _ _ _ H1 H2 Hfree) as Hfree2.
    intros p Hp. rewrite Hd4 in Hp. rewrite Hf4.
    assert (Hp3 : p ∈ dirs w3) by done.
    rewrite lookup_insert_ne by (intros E; by rewrite E in *).
    rewrite Hf3. rewrite lookup_insert_ne by (intros E; by rewrite E in *).
    rewrite lookup_delete. case_decide; [done|].
    rewrite Hd3 in Hp. apply elem_of_union in Hp as [->%elem_of_singleton|Hp].
    + destruct Hfolder as [Hin|?]; [by apply Hfree2|done].
    + by apply Hfree2.
Qed.

(** ** [main] as a whole *)

Lemma loop_ok_world output_dir names w w' :
  for_each names (process_file output_dir) w = (Ok tt, w') →
  cwd w' = cwd w ∧ dirs w ⊆ dirs w' ∧
  (no_file_is_dir w → no_file_is_dir w').
Proof.
  revert w. induction names as [|x names IH]; intros w H.
  { by injection H as <-. }
  cbn [for_each] in H.
  apply bind_inv in H as [([] & w1 & H1 & H2)|(e & _ & ?)]; [|done].
  destruct (process_file_ok_world _ _ _ _ H1) as (Hc1 & Hd1 & Hfree1).
  destruct (IH _ H2) as (Hc2 & Hd2 & Hfree2).
  split_and!; [congruence|by etrans|auto].
Qed.

(** Moving a directory onto itself, as line 73 does, changes nothing. *)
Lemma move_dir_onto_itself p w :
  resolve w p ∈ dirs w → files w !! resolve w p = None →
  shutil_move p p w = (Ok tt, w).
Proof.
  intros Hd Hf. unfold shutil_move.
  rewrite (decide_True (P := resolve w p ∈ dirs w)) by done.
  rewrite (decide_True (P := resolve w p = resolve w p)) by done.
  unfold os_rename. rewrite Hf.
  rewrite (decide_True (P := resolve w p ∈ dirs w)) by done.
  by rewrite (decide_True (P := resolve w p = resolve w p)).
Qed.

(** X7: in a working directory where no path is a file and a directory at
    once and [generated_files] is not a file, [main] makes the output
    directory (or finds it), and its outcome is the outcome of the loop
    over the listed names that end in [.csv]: the move of line 73
    neither raises nor changes anything.  With no such name, [main]
    returns having done nothing but make the output directory. *)
Theorem main_is_its_loop (w : World) :
  let output_dir := os_path_join (cwd w) "generated_files" in
  no_file_is_dir w →
  files w !! resolve w output_dir = None →
  ∃ wa names,
    os_makedirs output_dir w = (Ok tt, wa) ∧
    dirs wa = {[resolve w output_dir]} ∪ dirs w ∧
    files wa = files w ∧ frames wa = frames w ∧ cwd wa = cwd w ∧
    os_listdir (cwd w) wa = (Ok names, wa) ∧
    main w
    = for_each (List.filter (endswith ".csv") names) (process_file output_dir) wa ∧
    (List.filter (endswith ".csv") names = [] → main w = (Ok tt, wa)).
Proof.
  intros output_dir Hfree Hout.
  destruct (os_makedirs output_dir w) as [r wa] eqn:Hmk.
  destruct (os_makedirs_inv _ _ _ _ Hmk)
    as (Hca & Hfra & Hfa & [(-> & Hda & _)|(_ & _ & _ & Hs)]).
  2: { rewrite Hout in Hs. by destruct Hs. }
  assert (Hresa : ∀ p, resolve wa p = resolve w p)
    by (intros p; unfold resolve; by rewrite Hca).
  assert (Hfreea : no_file_is_dir wa).
  { intros p Hp. rewrite Hfa. rewrite Hda in Hp.
    apply elem_of_union in Hp as [->%elem_of_singleton|Hp]; [done|by apply Hfree]. }
  assert (Hina : resolve w output_dir ∈ dirs wa).
  { rewrite Hda. apply elem_of_union_l. by apply elem_of_singleton. }
  destruct (os_listdir (cwd w) wa) as [rn wl] eqn:Hls.
  assert (∃ names, rn = Ok names ∧ wl = wa) as (names & -> & ->).
  { unfold os_listdir in Hls. injection Hls as <- <-. by eexists. }
  assert (Hmain : main w
    = for_each (List.filter (endswith ".csv") names) (process_file output_dir) wa).
  { unfold main. rewrite (bind_ok _ _ w (cwd w) w) by done. fold output_dir.
    rewrite (bind_ok _ _ _ _ _ Hmk), (bind_ok _ _ _ _ _ Hls).
    destruct (for_each _ _ wa) as [[[]|e] w1] eqn:Hloop.
    - rewrite (bind_ok _ _ _ _ _ Hloop).
      destruct (loop_ok_world _ _ _ _ Hloop) as (Hc1 & Hd1 & Hfree1).
      assert (Hres1 : resolve w1 output_dir = resolve w output_dir)
        by (unfold resolve; by rewrite Hc1, Hca).
      apply move_dir_onto_itself.
      + rewrite Hres1. by apply Hd1.
      + apply Hfree1; [done|]. rewrite Hres1. by apply Hd1.
    - by rewrite (bind_raise _ _ _ _ _ Hloop). }
  exists wa, names. split_and!; try done.
  intros Hnone. by rewrite Hmain, Hnone.
Qed.

Lemma main_is_its_loop_witness :
  ∃ wa, main no_inputs = (Ok tt, wa) ∧
        dirs wa = {[ "/w/generated_files" ]} ∪ dirs no_inputs ∧
        files wa = files no_inputs.
Proof.
  destruct (main_is_its_loop no_inputs)
    as (wa & names & Hmk & Hd & Hf & _ & _ & Hls & _ & Hnone).
  - intros p Hp. change (p ∈ ({[ "/w" ]} : gset string)) in Hp.
    apply elem_of_singleton in Hp. subst p. by vm_compute.
  - by vm_compute.
  - exists wa. split_and!; [|exact Hd|exact Hf].
    apply Hnone.
    assert (Hn : names = match (os_listdir (cwd no_inputs) wa).1 with
                         | Ok x => x
                         | Raise _ => []
                         end) by by rewrite Hls.
    unfold os_listdir in Hn. cbn [fst] in Hn. rewrite Hf, Hd in Hn.
    rewrite Hn. by vm_compute.
Defined.





(** ** More on [split_by_difficulty] *)

Lemma filter_sublist {A : Type} (f : A → bool) (l : list A) :
  List.filter f l `sublist_of` l.
Proof.
  induction l as [|x l IH]; [constructor|]. simpl.
  destruct (f x); by constructor.
Qed.

(** X9: the files of a tier are cut out of the whole-song spreadsheet: same
    header, and the lines of the tier are lines of the whole-song sheet,
    in the same order. *)
Theorem tier_sheet_within_song_sheet (T P : DataFrame) (t : string) :
  partition t T = Some P →
  header (tier_sheet P) = header (to_sheet (drop_column "song_name" T)) ∧
  body (tier_sheet P) `sublist_of` body (to_sheet (drop_column "song_name" T)).
Proof.
  intros HP.
  assert (∃ pos, get_loc "difficulty" (columns T) = Some pos) as [pos Hpos].
  { unfold partition, getitem in HP.
    destruct (get_loc "difficulty" (columns T)); [by eexists|done]. }
  destruct (partition_rows _ _ _ _ Hpos HP) as [Hcols Hrows].
  unfold tier_sheet. split.
  - simpl. by rewrite Hcols.
  - rewrite !body_drop_column, Hcols, Hrows.
    apply fmap_sublist, filter_sublist.
Qed.

Lemma tier_sheet_within_song_sheet_witness :
  body (tier_sheet {| columns := header airglow;
                      rows := [(1, [CStr "Airglow"; CStr "HD"; CNum 90]);
                               (2, [CStr "Airglow"; CStr "HD"; CNum 80])] |})
  `sublist_of` body (to_sheet (drop_column "song_name" (of_sheet airglow))).
Proof.
  apply (tier_sheet_within_song_sheet (of_sheet airglow) _ "HD"). reflexivity.
Defined.

(** X10: [split_by_difficulty] only adds: whatever its outcome, the
    working directory and the directories are as before, every frame of
    the store is as before, and every file that was there is still there.
    It raises [KeyError] exactly for a table without a [difficulty]
    column. *)
Theorem split_by_difficulty_only_adds
  (df : nat) (T : DataFrame) (song_name : Cell) (song_folder : string)
  (w w' : World) (r : Result unit) :
  frames w !! df = Some T →
  split_by_difficulty df song_name song_folder w = (r, w') →
  cwd w' = cwd w ∧ dirs w' = dirs w ∧
  (∀ k U, frames w !! k = Some U → frames w' !! k = Some U) ∧
  (∀ p, is_Some (files w !! p) → is_Some (files w' !! p)) ∧
  (r = Raise KeyError ↔ get_loc "difficulty" (columns T) = None).
Proof.
  intros Hdf H.
  destruct (split_loop_inv _ _ _ _ _ _ _ _ Hdf H) as (Hc & Hd & [ext Hf] & Hp).
  split_and!; try done.
  - intros k U Hk. rewrite Hf. by apply lookup_app_l_Some.
  - intros p Hs. destruct (Hp p) as [->|(t & P & _ & _ & _ & [[_ ->]|[_ ->]])];
      [done|by eexists..].
  - split.
    2: { intros Hnone.
         rewrite (split_by_difficulty_no_column _ _ _ _ _ Hdf Hnone) in H.
         by injection H as <- _. }
    intros ->. clear Hc Hd Hf Hp ext. unfold split_by_difficulty in H.
    revert w Hdf H. generalize difficulties as ts.
    induction ts as [|t ts IH]; intros w Hdf H; [done|].
    cbn [for_each] in H.
    apply bind_inv in H as [([] & w1 & H1 & H2)|(e & H1 & [= <-])].
    + destruct (split_tier_inv _ _ _ _ _ _ _ _ Hdf H1) as (_ & _ & [ext Hf] & _).
      apply (IH w1); [|done]. rewrite Hf. by apply lookup_app_l_Some.
    + destruct (split_tier_inv _ _ _ _ _ _ _ _ Hdf H1) as (_ & _ & _ & Ht).
      destruct (partition t T) as [P|] eqn:HP.
      * destruct (empty P); [by destruct Ht|].
        by destruct Ht as [(? & _)|[(? & _)|(? & _)]].
      * unfold partition, getitem in HP.
        by destruct (get_loc "difficulty" (columns T)).
Qed.

Lemma split_by_difficulty_only_adds_witness :
  dirs (split_by_difficulty 0 (CStr "Airglow") "/w/generated_files/Airglow"
          airglow_loaded).2 = dirs airglow_loaded ∧
  frames (split_by_difficulty 0 (CStr "Airglow") "/w/generated_files/Airglow"
            airglow_loaded).2 !! 0 = Some (of_sheet airglow).
Proof.
  destruct (split_by_difficulty_only_adds 0 (of_sheet airglow) (CStr "Airglow")
              "/w/generated_files/Airglow" airglow_loaded
              (split_by_difficulty 0 (CStr "Airglow")
                 "/w/generated_files/Airglow" airglow_loaded).2
              (split_by_difficulty 0 (CStr "Airglow")
                 "/w/generated_files/Airglow" airglow_loaded).1)
    as (_ & Hd & Hfr & _).
  - reflexivity.
  - by destruct (split_by_difficulty _ _ _ _).
  - split; [exact Hd|]. by apply Hfr.
Defined.

(** X11: no row is exported twice and none of a known tier is lost: the four
    partitions together have as many rows as the table has rows of the
    four tiers, so their sizes and the number of rows of other tiers add
    up to the size of the table. *)
Theorem partitions_count_rows (T : DataFrame) (pos : nat) :
  get_loc "difficulty" (columns T) = Some pos →
  ∃ P_EZ P_HD P_IN P_AT,
    partition "EZ" T = Some P_EZ ∧ partition "HD" T = Some P_HD ∧
    partition "IN" T = Some P_IN ∧ partition "AT" T = Some P_AT ∧
    length (rows P_EZ) + length (rows P_HD) + length (rows P_IN)
    + length (rows P_AT) + length (List.filter (other_tier pos) (rows T))
    = length (rows T).
Proof.
  intros Hpos. do 4 eexists.
  rewrite !(partition_eq _ _ _ Hpos). split_and!; try reflexivity.
  cbn [rows]. induction (rows T) as [|r l IH]; [done|].
  cbn [List.filter]. unfold other_tier at 1, difficulties. cbn [existsb].
  destruct (cell_at pos r) as [s| |]; cbn [cell_eq_str orb negb length];
    [|lia..].
  destruct (String.eqb_spec s "EZ") as [->|]; [cbn; lia|].
  destruct (String.eqb_spec s "HD") as [->|]; [cbn; lia|].
  destruct (String.eqb_spec s "IN") as [->|]; [cbn; lia|].
  destruct (String.eqb_spec s "AT") as [->|]; cbn; lia.
Qed.

Lemma partitions_count_rows_witness :
  ∃ P_EZ P_HD P_IN P_AT,
    partition "EZ" (of_sheet legacy_sheet) = Some P_EZ ∧
    partition "HD" (of_sheet legacy_sheet) = Some P_HD ∧
    partition "IN" (of_sheet legacy_sheet) = Some P_IN ∧
    partition "AT" (of_sheet legacy_sheet) = Some P_AT ∧
    length (rows P_EZ) + length (rows P_HD) + length (rows P_IN)
    + length (rows P_AT)
    + length (List.filter (other_tier 1) (rows (of_sheet legacy_sheet)))
    = 2.
Proof.
  apply (partitions_count_rows (of_sheet legacy_sheet) 1). reflexivity.
Defined.
